(** * Interval logic of the calendar assistant

    A shallow embedding of [GoogleCalendarAPI.check_conflicts] and
    [GoogleCalendarAPI.find_free_slots] (calendar_api.py) and of the
    branch that [schedule_event] (ui_app.py) takes on their result.

    - Python exceptions are an explicit [outcome]: a computation either
      [Returns] a value or [Raises] an exception; [try_except] is the
      [try: ... except ...:] statement.
    - A [datetime] is the wall-clock reading in whole seconds together
      with its UTC offset, absent for a naive value; arithmetic on it is
      unbounded (the year range 1..9999 of Python is not modelled) and
      time has a resolution of one second.
    - The functions of the Python library that the code calls
      ([datetime.fromisoformat], [isoformat], [strptime], [os.getenv],
      [int]) are fields of the class [Platform]; the calendar service
      ([service.events().list(...).execute()], [insert]) is a field of
      the object [self]. *)

From Stdlib Require Import ZArith List String Ascii Bool Lia Sorted.
Import ListNotations.
Open Scope string_scope.
Open Scope list_scope.
Open Scope Z_scope.

(** ** Exceptions and outcomes *)

Inductive exn : Type :=
| HttpError (detail : string)
| ValueError (detail : string)
| KeyError (key : string)
| TypeError (detail : string).

(** [str(error)], as interpolated in the messages of the handlers. *)
Definition exn_str (e : exn) : string :=
  match e with
  | HttpError d => d
  | ValueError d => d
  | KeyError k => String.append "'" (String.append k "'")
  | TypeError d => d
  end.

Inductive outcome (A : Type) : Type :=
| Returns (a : A)
| Raises (e : exn).
Arguments Returns {A} a.
Arguments Raises {A} e.

Definition bind {A B : Type} (m : outcome A) (k : A -> outcome B) : outcome B :=
  match m with
  | Returns a => k a
  | Raises e => Raises e
  end.

Notation "x <- m ;; k" := (bind m (fun x => k))
  (at level 61, m at next level, right associativity).
Notation "' p <- m ;; k" := (bind m (fun x => let p := x in k))
  (at level 61, p pattern, m at next level, right associativity).

(** [try: body except Exception as error: handler]. *)
Definition try_except {A : Type} (body : outcome A) (handler : exn -> outcome A)
  : outcome A :=
  match body with
  | Returns a => Returns a
  | Raises e => handler e
  end.

Definition of_option {A : Type} (o : option A) (e : exn) : outcome A :=
  match o with
  | Some a => Returns a
  | None => Raises e
  end.

(** ** datetime and timedelta *)

Record datetime : Type := mk_datetime {
  wall : Z;                 (* wall-clock seconds since 1970-01-01T00:00:00 *)
  utcoffset : option Z      (* seconds east of UTC; [None] for a naive value *)
}.

(** The point on the time line that comparisons and differences of aware
    values use; for a naive value, its wall-clock reading. *)
Definition instant (d : datetime) : Z :=
  match utcoffset d with
  | Some off => wall d - off
  | None => wall d
  end.

Definition aware (d : datetime) : bool :=
  match utcoffset d with Some _ => true | None => false end.

(** [d + timedelta(minutes=m)]; the tzinfo is kept. *)
Definition add_minutes (d : datetime) (m : Z) : datetime :=
  {| wall := wall d + 60 * m; utcoffset := utcoffset d |}.

(** [d - timedelta(minutes=m)]. *)
Definition sub_minutes (d : datetime) (m : Z) : datetime :=
  {| wall := wall d - 60 * m; utcoffset := utcoffset d |}.

(** [(a - b).total_seconds()]; mixing a naive and an aware value raises. *)
Definition dt_sub (a b : datetime) : outcome Z :=
  if Bool.eqb (aware a) (aware b)
  then Returns (instant a - instant b)
  else Raises (TypeError "can't subtract offset-naive and offset-aware datetimes").

(** [a > b]. *)
Definition dt_gt (a b : datetime) : outcome bool :=
  if Bool.eqb (aware a) (aware b)
  then Returns (instant b <? instant a)
  else Raises (TypeError "can't compare offset-naive and offset-aware datetimes").

(** [max(a, b)]: the first argument is kept unless the second is
    strictly greater. *)
Definition dt_max (a b : datetime) : outcome datetime :=
  g <- dt_gt b a ;;
  Returns (if g then b else a).

(** [d.replace(hour=h, minute=0, second=0)]. *)
Definition replace_hour (d : datetime) (h : Z) : outcome datetime :=
  if (0 <=? h) && (h <=? 23)
  then Returns {| wall := 86400 * (wall d / 86400) + 3600 * h;
                  utcoffset := utcoffset d |}
  else Raises (ValueError "hour must be in 0..23").

(** A pytz time zone, as the offset it assigns to a wall-clock reading. *)
Definition tzinfo : Type := Z -> Z.

(** [tz.localize(d)]. *)
Definition localize (tz : tzinfo) (d : datetime) : outcome datetime :=
  match utcoffset d with
  | None => Returns {| wall := wall d; utcoffset := Some (tz (wall d)) |}
  | Some _ => Raises (ValueError "Not naive datetime (tzinfo is already set)")
  end.

(** [s.replace('Z', '+00:00')]. *)
Fixpoint replace_Z (s : string) : string :=
  match s with
  | EmptyString => EmptyString
  | String c r =>
      if Ascii.eqb c "Z"%char
      then String.append "+00:00" (replace_Z r)
      else String c (replace_Z r)
  end.

(** ** The Python library *)

Class Platform : Type := {
  fromisoformat : string -> option datetime;   (* datetime.fromisoformat *)
  isoformat : datetime -> string;              (* datetime.isoformat *)
  strptime_ymd : string -> option datetime;    (* datetime.strptime(_, '%Y-%m-%d') *)
  getenv : string -> option string;            (* os.getenv *)
  int_of_str : string -> option Z              (* int(_) on a str *)
}.

(** ** Calendar provider records *)

(** [event['start']] and [event['end']]: a timed event has 'dateTime',
    an all-day event has 'date'. *)
Record event_time : Type := {
  dateTime : option string;
  date : option string
}.

Record event : Type := {
  ev_summary : option string;
  ev_start : event_time;
  ev_end : event_time;
  ev_id : string
}.

Record list_request : Type := {
  calendarId : string;
  timeMin : string;
  timeMax : string;
  singleEvents : bool;
  orderBy : string
}.

Record list_response : Type := {
  items : option (list event)
}.

Record event_body : Type := {
  body_summary : string;
  body_start : string * string;      (* dateTime, timeZone *)
  body_end : string * string;
  body_reminders : list (string * Z);
  body_location : option string;
  body_description : option string
}.

Record calendar_service : Type := {
  events_list : list_request -> outcome list_response;
  events_insert : string -> event_body -> outcome (option string)
}.

(** The object [self]. *)
Record GoogleCalendarAPI : Type := {
  calendar_id : string;
  timezone_name : string;
  timezone : tzinfo;
  service : calendar_service
}.

(** An entry of the list returned by [check_conflicts]. *)
Inductive conflict_dict : Type :=
| Conflict (title start end_ id : string)
| ErrorDict (error : string).

(** An entry of the list returned by [find_free_slots]. *)
Record free_slot : Type := {
  slot_start : string;
  slot_end : string;
  slot_duration_minutes : Z
}.

(** The dict [event_data] that the user interface passes around. *)
Record event_data : Type := {
  ed_title : string;                  (* 'title' *)
  ed_start_time : string;             (* 'start_time' *)
  ed_end_time : string;               (* 'end_time' *)
  ed_location : option string;        (* 'location' *)
  ed_description : option string      (* 'description' *)
}.

(** ** calendar_api.py *)

Section CalendarAPI.

Context {platform : Platform}.
Variable self : GoogleCalendarAPI.

(** [datetime.fromisoformat(s)], raising on a string it rejects. *)
Definition datetime_fromisoformat (s : string) : outcome datetime :=
  of_option (fromisoformat s)
    (ValueError (String.append "Invalid isoformat string: " s)).

(** [datetime.strptime(s, '%Y-%m-%d')]. *)
Definition datetime_strptime (s : string) : outcome datetime :=
  of_option (strptime_ymd s)
    (ValueError (String.append "time data does not match format: " s)).

(** [int(os.getenv(name, default))]. *)
Definition env_int (name : string) (default : Z) : outcome Z :=
  match getenv name with
  | None => Returns default
  | Some s =>
      of_option (int_of_str s)
        (ValueError (String.append "invalid literal for int() with base 10: " s))
  end.

(** [d['dateTime']]. *)
Definition getitem_dateTime (t : event_time) : outcome string :=
  of_option (dateTime t) (KeyError "dateTime").

(** [events_result.get('items', [])]. *)
Definition get_items (r : list_response) : list event :=
  match items r with
  | Some l => l
  | None => []
  end.

(** [event.get('summary', 'No Title')]. *)
Definition get_summary (e : event) : string :=
  match ev_summary e with
  | Some s => s
  | None => "No Title"
  end.

(** *** create_event *)

(** [event_data.get(key)] used as a condition: [None] and the empty
    string are false. *)
Definition truthy (o : option string) : option string :=
  match o with
  | Some EmptyString => None
  | other => other
  end.

Definition create_event_try (d : event_data) : outcome (bool * option string) :=
  popup <- env_int "DEFAULT_REMINDER_MINUTES" 15 ;;
  email <- env_int "DEFAULT_REMINDER_MINUTES" 15 ;;
  let event_body :=
    {| body_summary := ed_title d;
       body_start := (ed_start_time d, timezone_name self);
       body_end := (ed_end_time d, timezone_name self);
       body_reminders := [("popup", popup); ("email", email)];
       body_location := truthy (ed_location d);
       body_description := truthy (ed_description d) |} in
  created <- events_insert (service self) (calendar_id self) event_body ;;
  Returns (true, created).

Definition create_event (d : event_data) : outcome (bool * option string) :=
  try_except (create_event_try d)
    (fun error =>
       match error with
       | HttpError _ =>
           Returns (false, Some (String.append "An error occurred: " (exn_str error)))
       | _ =>
           Returns (false, Some (String.append "Unexpected error: " (exn_str error)))
       end).

(** *** check_conflicts *)

(** The loop [for event in events:] of [check_conflicts]; [conflicts]
    is the list built so far. *)
Fixpoint conflicts_loop (events : list event) (conflicts : list conflict_dict)
  : outcome (list conflict_dict) :=
  match events with
  | [] => Returns conflicts
  | event :: rest =>
      match dateTime (ev_start event) with
      | Some start_dateTime =>          (* 'dateTime' in event['start'] *)
          end_dateTime <- getitem_dateTime (ev_end event) ;;
          conflicts_loop rest
            (conflicts ++ [Conflict (get_summary event) start_dateTime
                                    end_dateTime (ev_id event)])
      | None => conflicts_loop rest conflicts     (* skip all-day events *)
      end
  end.

(** The request of [check_conflicts] for the padded range. *)
Definition conflicts_request (start_dt end_dt : datetime) (buffer_minutes : Z)
  : list_request :=
  {| calendarId := calendar_id self;
     timeMin := isoformat (sub_minutes start_dt buffer_minutes);
     timeMax := isoformat (add_minutes end_dt buffer_minutes);
     singleEvents := true;
     orderBy := "startTime" |}.

(** The body of the [try:] block of [check_conflicts]. *)
Definition check_conflicts_try (start_time end_time : string)
    (buffer_minutes : option Z) : outcome (bool * list conflict_dict) :=
  buffer_minutes <-
    match buffer_minutes with
    | None => env_int "BUFFER_MINUTES" 15
    | Some b => Returns b
    end ;;
  start_dt <- datetime_fromisoformat (replace_Z start_time) ;;
  end_dt <- datetime_fromisoformat (replace_Z end_time) ;;
  events_result <-
    events_list (service self) (conflicts_request start_dt end_dt buffer_minutes) ;;
  let events := get_items events_result in
  conflicts <- conflicts_loop events [] ;;
  Returns (0 <? Z.of_nat (List.length conflicts), conflicts).

Definition check_conflicts (start_time end_time : string)
    (buffer_minutes : option Z) : outcome (bool * list conflict_dict) :=
  try_except (check_conflicts_try start_time end_time buffer_minutes)
    (fun error =>
       match error with
       | HttpError _ =>
           Returns (false, [ErrorDict (String.append "API error: " (exn_str error))])
       | _ =>
           Returns (false, [ErrorDict (String.append "Unexpected error: " (exn_str error))])
       end).

(** *** find_free_slots *)

(** The dict appended for a gap from [from] to [to], [gap] seconds long;
    [int(x / 60)] truncates. *)
Definition slot_dict (from to : datetime) (gap : Z) : free_slot :=
  {| slot_start := isoformat from;
     slot_end := isoformat to;
     slot_duration_minutes := Z.quot gap 60 |}.

(** The loop [for event in events:] of [find_free_slots]; the state is
    the cursor [current_time] and the list [free_slots] built so far. *)
Fixpoint slots_loop (duration_minutes : Z) (events : list event)
    (current_time : datetime) (free_slots : list free_slot)
  : outcome (datetime * list free_slot) :=
  match events with
  | [] => Returns (current_time, free_slots)
  | event :: rest =>
      match dateTime (ev_start event) with
      | Some start_dateTime =>
          event_start <- datetime_fromisoformat (replace_Z start_dateTime) ;;
          gap <- dt_sub event_start current_time ;;
          let free_slots :=
            if duration_minutes * 60 <=? gap
            then free_slots ++ [slot_dict current_time event_start gap]
            else free_slots in
          end_dateTime <- getitem_dateTime (ev_end event) ;;
          event_end <- datetime_fromisoformat (replace_Z end_dateTime) ;;
          current_time <- dt_max current_time event_end ;;
          slots_loop duration_minutes rest current_time free_slots
      | None => slots_loop duration_minutes rest current_time free_slots
      end
  end.

(** The request of [find_free_slots] for the working hours. *)
Definition slots_request (start_time end_time : datetime) : list_request :=
  {| calendarId := calendar_id self;
     timeMin := isoformat start_time;
     timeMax := isoformat end_time;
     singleEvents := true;
     orderBy := "startTime" |}.

(** From [free_slots = []] to [return free_slots]: the sweep over the
    listed events and the check for free time after the last one. *)
Definition sweep (start_time end_time : datetime) (duration_minutes : Z)
    (events : list event) : outcome (list free_slot) :=
  ' (current_time, free_slots) <-
      slots_loop duration_minutes events start_time [] ;;
  gap <- dt_sub end_time current_time ;;
  Returns (if duration_minutes * 60 <=? gap
           then free_slots ++ [slot_dict current_time end_time gap]
           else free_slots).

(** The working-hours window of [date]. *)
Definition work_window (date : string) (work_start_hour work_end_hour : Z)
  : outcome (datetime * datetime) :=
  date_obj <- datetime_strptime date ;;
  start_naive <- replace_hour date_obj work_start_hour ;;
  start_time <- localize (timezone self) start_naive ;;
  end_naive <- replace_hour date_obj work_end_hour ;;
  end_time <- localize (timezone self) end_naive ;;
  Returns (start_time, end_time).

(** The body of the [try:] block of [find_free_slots]. *)
Definition find_free_slots_try (date : string) (duration_minutes : Z)
    (work_start_hour work_end_hour : Z) : outcome (list free_slot) :=
  ' (start_time, end_time) <- work_window date work_start_hour work_end_hour ;;
  events_result <-
    events_list (service self) (slots_request start_time end_time) ;;
  let events := get_items events_result in
  sweep start_time end_time duration_minutes events.

(** The handler prints the error and returns the empty list. *)
Definition find_free_slots (date : string) (duration_minutes : Z)
    (work_start_hour work_end_hour : Z) : outcome (list free_slot) :=
  try_except
    (find_free_slots_try date duration_minutes work_start_hour work_end_hour)
    (fun error => Returns []).

End CalendarAPI.

(** Default arguments of [find_free_slots]. *)
Definition default_work_start_hour : Z := 9.
Definition default_work_end_hour : Z := 18.

(** ** ui_app.py *)

(** What [schedule_event] does after the conflict check. *)
Inductive scheduling : Type :=
| ConflictDetected (shown : list conflict_dict)
| CreateEvent (result : outcome (bool * option string)).

Section UI.

Context {platform : Platform}.
Variable calendar_api : GoogleCalendarAPI.
Variable buffer_time : option Z.       (* st.session_state.get('buffer_time') *)

(** The conflicts drawn as cards: [if 'error' not in conflict]. *)
Definition shown_conflicts (conflicts : list conflict_dict) : list conflict_dict :=
  filter (fun c => match c with Conflict _ _ _ _ => true | ErrorDict _ => false end)
         conflicts.

Definition schedule_event (d : event_data) : outcome scheduling :=
  ' (has_conflicts, conflicts) <-
      check_conflicts calendar_api (ed_start_time d) (ed_end_time d)
        (Some (match buffer_time with Some b => b | None => 15 end)) ;;
  if has_conflicts : bool
  then Returns (ConflictDetected (shown_conflicts conflicts))
  else Returns (CreateEvent (create_event calendar_api d)).

End UI.

(** ** A reference platform

    A concrete [Platform] on which the functions above can be run: the
    fixed layout [YYYY-MM-DDTHH:MM:SS] with an optional [+HH:MM] or
    [-HH:MM] offset, which is what [isoformat] prints for a value without
    microseconds and what the provider sends, and the proleptic
    Gregorian calendar of Python's [datetime]. *)

Module Iso8601.

Definition digit (c : ascii) : option Z :=
  let n := Z.of_N (N_of_ascii c) in
  if (48 <=? n) && (n <=? 57) then Some (n - 48) else None.

Fixpoint number (cs : list ascii) (acc : Z) : option Z :=
  match cs with
  | [] => Some acc
  | c :: rest =>
      match digit c with
      | Some d => number rest (10 * acc + d)
      | None => None
      end
  end.

(** The decimal number in the [len] characters from position [pos]. *)
Definition field (cs : list ascii) (pos len : nat) : option Z :=
  number (firstn len (skipn pos cs)) 0.

Definition sep (cs : list ascii) (pos : nat) (c : ascii) : bool :=
  match nth_error cs pos with
  | Some x => Ascii.eqb x c
  | None => false
  end.

Definition is_leap (y : Z) : bool :=
  ((y mod 4 =? 0) && negb (y mod 100 =? 0)) || (y mod 400 =? 0).

Definition days_in_month (y m : Z) : Z :=
  if m =? 2 then (if is_leap y then 29 else 28)
  else if (m =? 4) || (m =? 6) || (m =? 9) || (m =? 11) then 30
  else 31.

(** Days from 1970-01-01 to the civil date [y]-[m]-[d]. *)
Definition days_from_civil (y m d : Z) : Z :=
  let y' := if m <=? 2 then y - 1 else y in
  let era := y' / 400 in
  let yoe := y' - era * 400 in
  let doy := (153 * (if 2 <? m then m - 3 else m + 9) + 2) / 5 + d - 1 in
  let doe := yoe * 365 + yoe / 4 - yoe / 100 + doy in
  era * 146097 + doe - 719468.

(** The civil date of day number [z]. *)
Definition civil_from_days (z : Z) : Z * Z * Z :=
  let z := z + 719468 in
  let era := z / 146097 in
  let doe := z - era * 146097 in
  let yoe := (doe - doe / 1460 + doe / 36524 - doe / 146096) / 365 in
  let doy := doe - (365 * yoe + yoe / 4 - yoe / 100) in
  let mp := (5 * doy + 2) / 153 in
  let d := doy - (153 * mp + 2) / 5 + 1 in
  let m := if mp <? 10 then mp + 3 else mp - 9 in
  let y := yoe + era * 400 in
  (if m <=? 2 then y + 1 else y, m, d).

Definition parse_date (cs : list ascii) : option Z :=
  match field cs 0 4, field cs 5 2, field cs 8 2 with
  | Some y, Some m, Some d =>
      if sep cs 4 "-" && sep cs 7 "-"
         && (1 <=? y) && (1 <=? m) && (m <=? 12)
         && (1 <=? d) && (d <=? days_in_month y m)
      then Some (days_from_civil y m d)
      else None
  | _, _, _ => None
  end.

Definition parse_time (cs : list ascii) : option Z :=
  match field cs 11 2, field cs 14 2, field cs 17 2 with
  | Some h, Some mi, Some s =>
      if sep cs 10 "T" && sep cs 13 ":" && sep cs 16 ":"
         && (h <=? 23) && (mi <=? 59) && (s <=? 59)
      then Some (3600 * h + 60 * mi + s)
      else None
  | _, _, _ => None
  end.

Definition parse_offset (cs : list ascii) : option Z :=
  match field cs 20 2, field cs 23 2 with
  | Some h, Some mi =>
      if sep cs 22 ":" && (h <=? 23) && (mi <=? 59)
      then if sep cs 19 "+" then Some (3600 * h + 60 * mi)
           else if sep cs 19 "-" then Some (- (3600 * h + 60 * mi))
           else None
      else None
  | _, _ => None
  end.

Definition parse (s : string) : option datetime :=
  let cs := list_ascii_of_string s in
  match parse_date cs, parse_time cs with
  | Some days, Some secs =>
      if Nat.eqb (List.length cs) 19
      then Some {| wall := 86400 * days + secs; utcoffset := None |}
      else if Nat.eqb (List.length cs) 25
      then match parse_offset cs with
           | Some off => Some {| wall := 86400 * days + secs; utcoffset := Some off |}
           | None => None
           end
      else None
  | _, _ => None
  end.

Definition parse_ymd (s : string) : option datetime :=
  let cs := list_ascii_of_string s in
  if Nat.eqb (List.length cs) 10
  then match parse_date cs with
       | Some days => Some {| wall := 86400 * days; utcoffset := None |}
       | None => None
       end
  else None.

Definition digit_char (d : Z) : ascii := ascii_of_N (Z.to_N (48 + d)).

Definition pad2 (n : Z) : string :=
  String (digit_char (n / 10 mod 10)) (String (digit_char (n mod 10)) EmptyString).

Definition pad4 (n : Z) : string :=
  String.append (pad2 (n / 100)) (pad2 (n mod 100)).

Definition print_offset (off : Z) : string :=
  let a := Z.abs off in
  String.append (if off <? 0 then "-" else "+")
    (String.append (pad2 (a / 3600)) (String.append ":" (pad2 (a mod 3600 / 60)))).

Definition print (d : datetime) : string :=
  let '(y, m, dd) := civil_from_days (wall d / 86400) in
  let secs := wall d mod 86400 in
  String.append (pad4 y)
   (String.append "-" (String.append (pad2 m)
   (String.append "-" (String.append (pad2 dd)
   (String.append "T" (String.append (pad2 (secs / 3600))
   (String.append ":" (String.append (pad2 (secs mod 3600 / 60))
   (String.append ":" (String.append (pad2 (secs mod 60))
     match utcoffset d with
     | Some off => print_offset off
     | None => EmptyString
     end)))))))))).

Definition parse_int (s : string) : option Z :=
  match list_ascii_of_string s with
  | [] => None
  | cs => number cs 0
  end.

End Iso8601.

(** The reference platform, with no environment variable set. *)
Definition reference_platform : Platform :=
  {| fromisoformat := Iso8601.parse;
     isoformat := Iso8601.print;
     strptime_ymd := Iso8601.parse_ymd;
     getenv := fun _ => None;
     int_of_str := Iso8601.parse_int |}.

(** Asia/Kolkata, the default of [TIME_ZONE]: UTC+05:30 throughout. *)
Definition kolkata : tzinfo := fun _ => 19800.

(** ** Busy intervals and the provider's listing *)

Section Listing.

Context {platform : Platform}.

(** Whether the code treats an event as timed: ['dateTime' in event['start']]. *)
Definition is_timed (e : event) : bool :=
  match dateTime (ev_start e) with Some _ => true | None => false end.

(** The start and end of a timed event, read as the code reads them. *)
Definition event_span (e : event) : option (datetime * datetime) :=
  match dateTime (ev_start e), dateTime (ev_end e) with
  | Some s, Some t =>
      match fromisoformat (replace_Z s), fromisoformat (replace_Z t) with
      | Some a, Some b => Some (a, b)
      | _, _ => None
      end
  | _, _ => None
  end.

(** A busy interval as the data model has it: a timed event whose two
    timestamps parse to aware values with start <= end. *)
Definition well_formed (e : event) : Prop :=
  is_timed e = true ->
  exists a b, event_span e = Some (a, b)
              /\ aware a = true /\ aware b = true /\ instant a <= instant b.

(** The half-open overlap test of the range from [lo] to [hi] with a
    timed event. *)
Definition overlaps (lo hi : datetime) (e : event) : bool :=
  match event_span e with
  | Some (a, b) => (instant a <? instant hi) && (instant lo <? instant b)
  | None => false
  end.

(** Insertion sort, stable, by a boolean order. *)
Fixpoint insert_sorted {A : Type} (leb : A -> A -> bool) (x : A) (l : list A)
  : list A :=
  match l with
  | [] => [x]
  | y :: rest => if leb x y then x :: l else y :: insert_sorted leb x rest
  end.

Definition sort_with {A : Type} (leb : A -> A -> bool) (l : list A) : list A :=
  fold_right (insert_sorted leb) [] l.

Definition start_key (e : event) : Z :=
  match event_span e with Some (a, _) => instant a | None => 0 end.

Definition end_key (e : event) : Z :=
  match event_span e with Some (_, b) => instant b | None => 0 end.

(** The order of the specification's sweep: by start time ascending,
    ties by end time ascending. *)
Definition start_then_end_leb (x y : event) : bool :=
  (start_key x <? start_key y)
  || ((start_key x =? start_key y) && (end_key x <=? end_key y)).

(** The specification's preparation of the busy list: all-day entries
    excluded, the rest sorted by start time, ties by end time. *)
Definition spec_sorted_busy (busy : list event) : list event :=
  sort_with start_then_end_leb (filter is_timed busy).

(** A provider that holds [calendar] and lists it as its documentation
    says: [timeMin] is an exclusive lower bound on an event's end,
    [timeMax] an exclusive upper bound on its start, both must carry an
    offset, and [orderBy = "startTime"] orders the result by start
    time. All-day entries are listed whenever the bounds parse. *)
Definition listing (calendar : list event) (req : list_request)
  : outcome list_response :=
  match fromisoformat (timeMin req), fromisoformat (timeMax req) with
  | Some lo, Some hi =>
      if aware lo && aware hi
      then
        let found :=
          filter (fun e => negb (is_timed e) || overlaps lo hi e) calendar in
        Returns {| items := Some (if String.eqb (orderBy req) "startTime"
                                  then sort_with (fun x y => start_key x <=? start_key y) found
                                  else found) |}
      else Raises (HttpError "Bad Request")
  | _, _ => Raises (HttpError "Bad Request")
  end.

Definition listing_service (calendar : list event) : calendar_service :=
  {| events_list := listing calendar;
     events_insert := fun _ _ => Returns (Some "created") |}.

(** A provider that answers every listing with the same [events]. *)
Definition fixed_service (events : list event) : calendar_service :=
  {| events_list := fun _ => Returns {| items := Some events |};
     events_insert := fun _ _ => Returns (Some "created") |}.

End Listing.

(** [self] for the default configuration over a given provider. *)
Definition api_over (s : calendar_service) : GoogleCalendarAPI :=
  {| calendar_id := "primary";
     timezone_name := "Asia/Kolkata";
     timezone := kolkata;
     service := s |}.

(** A timed event from [s] to [t], and an all-day event on [d]. *)
Definition timed_event (name s t : string) : event :=
  {| ev_summary := Some name;
     ev_start := {| dateTime := Some s; date := None |};
     ev_end := {| dateTime := Some t; date := None |};
     ev_id := name |}.

Definition all_day_event (name d d' : string) : event :=
  {| ev_summary := Some name;
     ev_start := {| dateTime := None; date := Some d |};
     ev_end := {| dateTime := None; date := Some d' |};
     ev_id := name |}.

(** ** Scenario data

    One working day, 2024-01-15 in Asia/Kolkata, and a few events on it. *)

Definition spanning_event : event :=
  timed_event "offsite" "2024-01-15T08:00:00+05:30" "2024-01-15T19:00:00+05:30".

Definition standup_event : event :=
  timed_event "standup" "2024-01-15T10:00:00+05:30" "2024-01-15T11:00:00+05:30".

Definition review_event : event :=
  timed_event "review" "2024-01-15T15:10:00+05:30" "2024-01-15T16:00:00+05:30".

Definition workshop_event : event :=
  timed_event "workshop" "2024-01-15T15:00:00+05:30" "2024-01-15T16:00:00+05:30".

Definition late_event : event :=
  timed_event "retro" "2024-01-15T17:00:00+05:30" "2024-01-15T18:00:00+05:30".

Definition dinner_event : event :=
  timed_event "dinner" "2024-01-15T19:00:00+05:30" "2024-01-15T20:00:00+05:30".

Definition holiday_event : event :=
  all_day_event "holiday" "2024-01-15" "2024-01-16".

Definition unreadable_event : event :=
  timed_event "draft" "next monday" "2024-01-15T11:00:00+05:30".

(** 09:00, 14:00, 15:00, 16:30, 18:00, 19:00 and 20:00 of that day. *)
Definition nine : datetime := {| wall := 1705309200; utcoffset := Some 19800 |}.
Definition fourteen : datetime := {| wall := 1705327200; utcoffset := Some 19800 |}.
Definition fifteen : datetime := {| wall := 1705330800; utcoffset := Some 19800 |}.
Definition half_past_sixteen : datetime :=
  {| wall := 1705336200; utcoffset := Some 19800 |}.
Definition eighteen : datetime := {| wall := 1705341600; utcoffset := Some 19800 |}.
Definition nineteen : datetime := {| wall := 1705345200; utcoffset := Some 19800 |}.
Definition twenty : datetime := {| wall := 1705348800; utcoffset := Some 19800 |}.

Definition at_14_00 : string := "2024-01-15T14:00:00+05:30".
Definition at_15_00 : string := "2024-01-15T15:00:00+05:30".
Definition at_16_30 : string := "2024-01-15T16:30:00+05:30".

(** An extracted event whose start is not a timestamp. *)
Definition vague_lunch : event_data :=
  {| ed_title := "lunch";
     ed_start_time := "tomorrow at noon";
     ed_end_time := "2024-01-16T13:00:00";
     ed_location := None;
     ed_description := None |}.

(** ** The specification's reading of the two operations *)

Section Reading.

Context {platform : Platform}.

(** The entry that [check_conflicts] appends for an event; none for an
    all-day event. *)
Definition conflict_entry (e : event) : list conflict_dict :=
  match dateTime (ev_start e), dateTime (ev_end e) with
  | Some s, Some t => [Conflict (get_summary e) s t (ev_id e)]
  | _, _ => []
  end.

(** A timed event carries ['dateTime'] on both ends. *)
Definition complete (e : event) : Prop :=
  is_timed e = true -> dateTime (ev_end e) <> None.

Definition nonempty {A : Type} (l : list A) : bool :=
  match l with [] => false | _ :: _ => true end.

(** The Conflict Detector as the specification words it: pad the
    candidate by [buffer] on both sides, keep the busy intervals that
    pass the half-open overlap test, in input order. *)
Definition spec_has_conflict (candidate_start candidate_end : datetime)
    (buffer : Z) (busy : list event) : bool * list conflict_dict :=
  let lo := sub_minutes candidate_start buffer in
  let hi := add_minutes candidate_end buffer in
  let conflicting := filter (overlaps lo hi) busy in
  (nonempty conflicting, flat_map conflict_entry conflicting).

(** A gap from its first to its second component, its length in
    seconds, and the dict the code makes of it. *)
Definition gap : Type := datetime * datetime.

Definition gap_seconds (g : gap) : Z := instant (snd g) - instant (fst g).

Definition gap_slot (g : gap) : free_slot :=
  slot_dict (fst g) (snd g) (gap_seconds g).

(** [x] ends no later than [y] starts. *)
Definition precedes (x y : gap) : Prop := instant (snd x) <= instant (fst y).

(** The start of some timed event of the list. *)
Definition busy_start (events : list event) (d : datetime) : Prop :=
  exists e b, In e events /\ is_timed e = true /\ event_span e = Some (d, b).

(** The end of some timed event of the list. *)
Definition busy_end (events : list event) (d : datetime) : Prop :=
  exists e a, In e events /\ is_timed e = true /\ event_span e = Some (a, d).

(** The sweep of [slots_loop] on the time line alone: the cursor after
    the listed events and the gaps found, for the runs of the loop in
    which nothing is raised. *)
Fixpoint sweep_gaps (duration_minutes : Z) (events : list event)
    (current_time : datetime) : datetime * list gap :=
  match events with
  | [] => (current_time, [])
  | event :: rest =>
      match event_span event with
      | Some (event_start, event_end) =>
          let next :=
            if instant current_time <? instant event_end
            then event_end else current_time in
          let '(last, found) := sweep_gaps duration_minutes rest next in
          (last,
           if duration_minutes * 60 <=? instant event_start - instant current_time
           then (current_time, event_start) :: found
           else found)
      | None => sweep_gaps duration_minutes rest current_time
      end
  end.

(** The gaps of [sweep]: those of the loop and the trailing one. *)
Definition window_gaps (start_time end_time : datetime) (duration_minutes : Z)
    (events : list event) : list gap :=
  let '(last, found) := sweep_gaps duration_minutes events start_time in
  if duration_minutes * 60 <=? instant end_time - instant last
  then found ++ [(last, end_time)]
  else found.

(** The start and end of a listed busy interval are in order. *)
Definition ordered_span (e : event) : Prop :=
  forall a b, event_span e = Some (a, b) -> instant a <= instant b.

(** A timed event as the provider lists it for a calendar kept in one
    time zone: both timestamps parse, the start carries the offset
    [off], the end carries an offset, and the start is not after the
    end. *)
Definition listed_in_zone (off : Z) (e : event) : Prop :=
  exists a b,
    event_span e = Some (a, b)
    /\ utcoffset a = Some off /\ aware b = true
    /\ instant a <= instant b.

(** Listed by start time, as [orderBy = "startTime"] asks. *)
Definition by_start (x y : event) : Prop := start_key x <= start_key y.

(** What the loop emits: every gap is at least the requested duration
    long, starts at the cursor (the start of the sweep or the end of a
    busy interval, never earlier than the start of the sweep) and ends
    at the start of a busy interval. *)
Definition loop_gap (dm : Z) (events : list event) (c : datetime) (g : gap)
  : Prop :=
  dm * 60 <= gap_seconds g
  /\ instant c <= instant (fst g)
  /\ (fst g = c \/ busy_end events (fst g))
  /\ busy_start events (snd g).

(** What the sweep needs of the events that follow one starting at [a]. *)
Definition follows (off : Z) (a : datetime) (y : event) : Prop :=
  listed_in_zone off y /\ instant a <= start_key y.

(** A gap that meets no busy interval of the list. *)
Definition clear_of (events : list event) (g : gap) : Prop :=
  forall e a b,
    In e events -> event_span e = Some (a, b) ->
    instant b <= instant (fst g) \/ instant (snd g) <= instant a.

End Reading.

(** ** calendar_api.py: upcoming events and updates

    The further methods of [self.service] that these two operations call
    are the fields of [editing_service]; the clock is the argument [now]. *)

(** An event as the provider returns it in full. *)
Record event_resource : Type := {
  res_event : event;
  res_location : option string;         (* 'location' *)
  res_description : option string       (* 'description' *)
}.

Record upcoming_request : Type := {
  up_bounds : list_request;
  maxResults : Z
}.

Record editing_service : Type := {
  events_list_upcoming : upcoming_request -> outcome (option (list event_resource));
  events_get : string -> string -> outcome event_resource;
  events_update : string -> string -> event_resource -> outcome event_resource
}.

(** An entry of the list returned by [get_upcoming_events]. *)
Record upcoming_dict : Type := {
  up_title : string;
  up_start : string;
  up_end : string;
  up_location : string;
  up_id : string
}.

(** The dict passed to [update_event]: a field is [Some] when its key is
    in the dict. *)
Record event_patch : Type := {
  patch_title : option string;
  patch_start_time : option string;
  patch_end_time : option string;
  patch_location : option string;
  patch_description : option string
}.

Section MoreCalendarAPI.

Context {platform : Platform}.
Variable self : GoogleCalendarAPI.
Variable editing : editing_service.

(** The loop [for event in events:] of [get_upcoming_events]. *)
Fixpoint upcoming_loop (events : list event_resource) (upcoming : list upcoming_dict)
  : outcome (list upcoming_dict) :=
  match events with
  | [] => Returns upcoming
  | event :: rest =>
      match dateTime (ev_start (res_event event)) with
      | Some start_dateTime =>
          end_dateTime <- getitem_dateTime (ev_end (res_event event)) ;;
          upcoming_loop rest
            (upcoming ++ [ {| up_title := get_summary (res_event event);
                              up_start := start_dateTime;
                              up_end := end_dateTime;
                              up_location :=
                                match res_location event with
                                | Some l => l
                                | None => EmptyString
                                end;
                              up_id := ev_id (res_event event) |} ])
      | None => upcoming_loop rest upcoming
      end
  end.

Definition upcoming_request_for (now : datetime) (days_ahead : Z)
  : upcoming_request :=
  {| up_bounds :=
       {| calendarId := calendar_id self;
          timeMin := isoformat now;
          timeMax := isoformat (add_minutes now (1440 * days_ahead));
          singleEvents := true;
          orderBy := "startTime" |};
     maxResults := 20 |}.

Definition get_upcoming_events_try (now : datetime) (days_ahead : Z)
  : outcome (list upcoming_dict) :=
  events_result <-
    events_list_upcoming editing (upcoming_request_for now days_ahead) ;;
  let events := match events_result with Some l => l | None => [] end in
  upcoming_loop events [].

(** Both handlers print the error and return the empty list. *)
Definition get_upcoming_events (now : datetime) (days_ahead : Z)
  : outcome (list upcoming_dict) :=
  try_except (get_upcoming_events_try now days_ahead) (fun error => Returns []).

(** The assignments [existing_event[...] = event_data[...]] of
    [update_event], one for each key in [event_data]. *)
Definition set_dateTime (t : event_time) (v : string) : event_time :=
  {| dateTime := Some v; date := date t |}.

Definition apply_patch (event_data : event_patch) (existing_event : event_resource)
  : event_resource :=
  let e := res_event existing_event in
  {| res_event :=
       {| ev_summary :=
            match patch_title event_data with
            | Some v => Some v
            | None => ev_summary e
            end;
          ev_start :=
            match patch_start_time event_data with
            | Some v => set_dateTime (ev_start e) v
            | None => ev_start e
            end;
          ev_end :=
            match patch_end_time event_data with
            | Some v => set_dateTime (ev_end e) v
            | None => ev_end e
            end;
          ev_id := ev_id e |};
     res_location :=
       match patch_location event_data with
       | Some v => Some v
       | None => res_location existing_event
       end;
     res_description :=
       match patch_description event_data with
       | Some v => Some v
       | None => res_description existing_event
       end |}.

Definition update_event_try (event_id : string) (event_data : event_patch)
  : outcome (bool * string) :=
  existing_event <- events_get editing (calendar_id self) event_id ;;
  updated_event <-
    events_update editing (calendar_id self) event_id
      (apply_patch event_data existing_event) ;;
  Returns (true, "Event updated successfully").

Definition update_event (event_id : string) (event_data : event_patch)
  : outcome (bool * string) :=
  try_except (update_event_try event_id event_data)
    (fun error =>
       match error with
       | HttpError _ =>
           Returns (false, String.append "An error occurred: " (exn_str error))
       | _ =>
           Returns (false, String.append "Unexpected error: " (exn_str error))
       end).

End MoreCalendarAPI.

(** ** grok_nlp.py

    A decoded JSON value, with the Python operations the code applies to
    it: [key in value], [value[key]] and [datetime.fromisoformat(value)]. *)

#[local] Unset Elimination Schemes.
Inductive json : Type :=
| JNull
| JBool (b : bool)
| JNumber (literal : string)
| JString (s : string)
| JArray (elements : list json)
| JObject (members : list (string * json)).
#[local] Set Elimination Schemes.

(** [needle in hay] on two strings. *)
Fixpoint str_contains (needle hay : string) : bool :=
  if String.prefix needle hay then true
  else match hay with
       | EmptyString => false
       | String _ rest => str_contains needle rest
       end.

(** [d.get(key)] on the members of a dict. *)
Fixpoint dict_get (key : string) (members : list (string * json)) : option json :=
  match members with
  | [] => None
  | (k, v) :: rest => if String.eqb k key then Some v else dict_get key rest
  end.

Definition is_string (key : string) (v : json) : bool :=
  match v with
  | JString s => String.eqb s key
  | _ => false
  end.

(** [key in value]: a key of a dict, an element of a list, a substring
    of a string; the other values are not iterable. *)
Definition py_in (key : string) (value : json) : outcome bool :=
  match value with
  | JObject members =>
      Returns (match dict_get key members with Some _ => true | None => false end)
  | JArray elements => Returns (existsb (is_string key) elements)
  | JString s => Returns (str_contains key s)
  | _ => Raises (TypeError "argument is not iterable")
  end.

(** [value[key]] with a string key. *)
Definition py_getitem (value : json) (key : string) : outcome json :=
  match value with
  | JObject members => of_option (dict_get key members) (KeyError key)
  | _ => Raises (TypeError "indices must be integers")
  end.

(** [', '.join(names)]. *)
Fixpoint join_comma (names : list string) : string :=
  match names with
  | [] => EmptyString
  | [x] => x
  | x :: rest => String.append x (String.append ", " (join_comma rest))
  end.

Definition error_dict (message : string) : json :=
  JObject [("error", JString message)].

Definition required_fields : list string :=
  ["title"; "start_time"; "end_time"; "duration_minutes"].

Definition suggestion_keys : list string :=
  ["suggestion"; "start_time"; "end_time"; "reason"].

(** The object [self] of [GrokNLP]: [_make_api_call] returns the text of
    the model's answer or [None]; it raises nothing. *)
Record GrokNLP : Type := {
  make_api_call : string -> option string
}.

Section Grok.

Context {platform : Platform}.
Variable self : GrokNLP.
Variable json_loads : string -> string + json.   (* json.loads: an error message or a value *)
Variable extraction_prompt : string -> string.
Variable alternatives_prompt : string -> list conflict_dict -> string.

(** [datetime.fromisoformat(value)] on a decoded value. *)
Definition json_fromisoformat (value : json) : outcome datetime :=
  match value with
  | JString s => datetime_fromisoformat s
  | _ => Raises (TypeError "fromisoformat: argument must be str")
  end.

(** [[field for field in fields if field not in value]]. *)
Fixpoint missing_in (fields : list string) (value : json) : outcome (list string) :=
  match fields with
  | [] => Returns []
  | field :: rest =>
      present <- py_in field value ;;
      missing <- missing_in rest value ;;
      Returns (if present then missing else field :: missing)
  end.

(** [all(key in value for key in keys)], which stops at the first key
    that is not in. *)
Fixpoint all_in (keys : list string) (value : json) : outcome bool :=
  match keys with
  | [] => Returns true
  | key :: rest =>
      present <- py_in key value ;;
      if present then all_in rest value else Returns false
  end.

(** The two [fromisoformat] calls that validate a dict. *)
Definition validate_times (value : json) : outcome unit :=
  start_time <- py_getitem value "start_time" ;;
  _ <- json_fromisoformat start_time ;;
  end_time <- py_getitem value "end_time" ;;
  _ <- json_fromisoformat end_time ;;
  Returns tt.

(** [not response]. *)
Definition no_response (response : option string) : bool :=
  match response with
  | None => true
  | Some EmptyString => true
  | Some _ => false
  end.

Definition response_text (response : option string) : string :=
  match response with Some s => s | None => EmptyString end.

(** The body of the outer [try:] block of [extract_event_info]. *)
Definition extract_event_info_try (user_input : string) : outcome (bool * json) :=
  let response := make_api_call self (extraction_prompt user_input) in
  if no_response response
  then Returns (false, error_dict "Failed to get response from Grok API")
  else
    match json_loads (response_text response) with
    | inl message =>
        Returns (false,
                 error_dict (String.append "Invalid JSON response from AI: " message))
    | inr event_data =>
        is_error <- py_in "error" event_data ;;
        if is_error : bool then Returns (false, event_data)
        else
          missing_fields <- missing_in required_fields event_data ;;
          if nonempty missing_fields
          then Returns (false,
                        error_dict (String.append "Missing required fields: "
                                      (join_comma missing_fields)))
          else
            try_except
              (_ <- validate_times event_data ;; Returns (true, event_data))
              (fun e =>
                 match e with
                 | ValueError _ =>
                     Returns (false,
                              error_dict (String.append "Invalid datetime format: "
                                            (exn_str e)))
                 | _ => Raises e
                 end)
    end.

Definition extract_event_info (user_input : string) : outcome (bool * json) :=
  try_except (extract_event_info_try user_input)
    (fun e =>
       Returns (false, error_dict (String.append "Unexpected error: " (exn_str e)))).

(** The loop [for suggestion in suggestions[:3]:]. *)
Fixpoint suggestions_loop (suggestions : list json) (valid_suggestions : list json)
  : outcome (list json) :=
  match suggestions with
  | [] => Returns valid_suggestions
  | suggestion :: rest =>
      complete_keys <- all_in suggestion_keys suggestion ;;
      if complete_keys : bool
      then
        valid_suggestions <-
          try_except
            (_ <- validate_times suggestion ;;
             Returns (valid_suggestions ++ [suggestion]))
            (fun e =>
               match e with
               | ValueError _ => Returns valid_suggestions     (* continue *)
               | _ => Raises e
               end) ;;
        suggestions_loop rest valid_suggestions
      else suggestions_loop rest valid_suggestions
  end.

Definition suggest_alternatives_try (event_description : string)
    (conflicts : list conflict_dict) : outcome (bool * list json) :=
  let response :=
    make_api_call self (alternatives_prompt event_description conflicts) in
  if no_response response then Returns (false, [])
  else
    match json_loads (response_text response) with
    | inl _ => Returns (false, [])
    | inr (JArray suggestions) =>
        valid_suggestions <- suggestions_loop (firstn 3 suggestions) [] ;;
        Returns (true, valid_suggestions)
    | inr _ => Returns (false, [])
    end.

Definition suggest_alternatives (event_description : string)
    (conflicts : list conflict_dict) : outcome (bool * list json) :=
  try_except (suggest_alternatives_try event_description conflicts)
    (fun e => Returns (false, [])).

End Grok.

(** ** ui_app.py: booking a free slot *)

Section Booking.

Context {platform : Platform}.
Variable strftime_seconds : datetime -> string.   (* strftime('%Y-%m-%dT%H:%M:%S') *)

(** The event that the button "Use Slot" schedules: it starts at the
    slot's start and lasts [duration_minutes]. *)
Definition use_slot (d : event_data) (duration_minutes : Z) (slot : free_slot)
  : outcome event_data :=
  slot_start <- datetime_fromisoformat (slot_start slot) ;;
  let slot_end := add_minutes slot_start duration_minutes in
  Returns {| ed_title := ed_title d;
             ed_start_time := strftime_seconds slot_start;
             ed_end_time := strftime_seconds slot_end;
             ed_location := ed_location d;
             ed_description := ed_description d |}.

End Booking.

(** ** Reading the results of these operations *)

Section MoreReading.

Context {platform : Platform}.

(** The entry that [get_upcoming_events] appends for an event; none for
    an all-day event. *)
Definition upcoming_entry (e : event_resource) : list upcoming_dict :=
  match dateTime (ev_start (res_event e)), dateTime (ev_end (res_event e)) with
  | Some s, Some t =>
      [ {| up_title := get_summary (res_event e);
           up_start := s;
           up_end := t;
           up_location := match res_location e with
                          | Some l => l
                          | None => EmptyString
                          end;
           up_id := ev_id (res_event e) |} ]
  | _, _ => []
  end.

Definition is_conflict (c : conflict_dict) : bool :=
  match c with Conflict _ _ _ _ => true | ErrorDict _ => false end.

Definition has_key (members : list (string * json)) (key : string) : bool :=
  match dict_get key members with Some _ => true | None => false end.

(** A member that is a string which [fromisoformat] accepts. *)
Definition reads_as_time (v : option json) : bool :=
  match v with
  | Some (JString s) =>
      match fromisoformat s with Some _ => true | None => false end
  | _ => false
  end.

(** A suggestion that [suggest_alternatives] keeps: a dict with the four
    keys whose two times are strings accepted by [fromisoformat]. *)
Definition suggestion_ok (x : json) : bool :=
  match x with
  | JObject members =>
      forallb (has_key members) suggestion_keys
      && reads_as_time (dict_get "start_time" members)
      && reads_as_time (dict_get "end_time" members)
  | _ => false
  end.

(** An extraction that [extract_event_info] accepts: a dict without the
    key 'error', with the four required keys, whose two times are
    strings accepted by [fromisoformat]. *)
Definition extraction_ok (x : json) : bool :=
  match x with
  | JObject members =>
      negb (has_key members "error")
      && forallb (has_key members) required_fields
      && reads_as_time (dict_get "start_time" members)
      && reads_as_time (dict_get "end_time" members)
  | _ => false
  end.

(** The body that [create_event] sends when the reminder setting reads
    as [minutes]. *)
Definition insert_body (self : GoogleCalendarAPI) (d : event_data) (minutes : Z)
  : event_body :=
  {| body_summary := ed_title d;
     body_start := (ed_start_time d, timezone_name self);
     body_end := (ed_end_time d, timezone_name self);
     body_reminders := [("popup", minutes); ("email", minutes)];
     body_location := truthy (ed_location d);
     body_description := truthy (ed_description d) |}.

(** [key in value] as a boolean, for the values that are iterable. *)
Definition in_value (value : json) (key : string) : bool :=
  match value with
  | JObject members => has_key members key
  | JArray elements => existsb (is_string key) elements
  | JString s => str_contains key s
  | _ => false
  end.

Definition iterable (value : json) : bool :=
  match value with
  | JObject _ | JArray _ | JString _ => true
  | _ => false
  end.

(** The part of [extract_event_info] that examines the decoded answer. *)
Definition examine (event_data : json) : outcome (bool * json) :=
  is_error <- py_in "error" event_data ;;
  if is_error : bool then Returns (false, event_data)
  else
    missing_fields <- missing_in required_fields event_data ;;
    if nonempty missing_fields
    then Returns (false,
                  error_dict (String.append "Missing required fields: "
                                (join_comma missing_fields)))
    else
      try_except
        (_ <- validate_times event_data ;; Returns (true, event_data))
        (fun e =>
           match e with
           | ValueError _ =>
               Returns (false,
                        error_dict (String.append "Invalid datetime format: "
                                      (exn_str e)))
           | _ => Raises e
           end).

(** The gaps that are long enough for [dm]. *)
Definition long_enough (dm : Z) (g : gap) : bool := dm * 60 <=? gap_seconds g.

End MoreReading.

(** ** Further scenario data *)

(** A provider of upcoming events that answers with a timed event with
    a location and an all-day event. *)
Definition upcoming_answer : list event_resource :=
  [ {| res_event := standup_event;
       res_location := Some "Room 4";
       res_description := None |};
    {| res_event := holiday_event;
       res_location := None;
       res_description := None |} ].

Definition sample_editing : editing_service :=
  {| events_list_upcoming := fun _ => Returns (Some upcoming_answer);
     events_get := fun _ _ => Raises (HttpError "Not Found");
     events_update := fun _ _ e => Returns e |}.

(** A language model that always gives the same answer, and a decoder
    that knows two texts. *)
Definition sample_grok : GrokNLP :=
  {| make_api_call := fun _ => Some "answer" |}.

Definition lunch_extraction : json :=
  JObject [ ("title", JString "Lunch");
            ("start_time", JString "2024-01-16T12:00:00");
            ("end_time", JString "2024-01-16T13:00:00");
            ("duration_minutes", JNumber "60") ].

Definition extraction_decoder (text : string) : string + json :=
  if String.eqb text "answer" then inr lunch_extraction
  else inl "Expecting value".

Definition suggestions_decoder (text : string) : string + json :=
  if String.eqb text "answer"
  then inr (JArray [ JObject [ ("suggestion", JString "Tomorrow at 3 PM");
                               ("start_time", JString "2024-01-16T15:00:00");
                               ("end_time", JString "2024-01-16T16:00:00");
                               ("reason", JString "No conflicts") ];
                     JString "later";
                     JObject [ ("suggestion", JString "Some day");
                               ("start_time", JString "some day");
                               ("end_time", JString "2024-01-16T16:00:00");
                               ("reason", JString "Unclear") ];
                     JObject [ ("suggestion", JString "Tomorrow at 5 PM");
                               ("start_time", JString "2024-01-16T17:00:00");
                               ("end_time", JString "2024-01-16T18:00:00");
                               ("reason", JString "Fourth") ] ])
  else inl "Expecting value".

Definition sample_event : event_data :=
  {| ed_title := "lunch";
     ed_start_time := "2024-01-15T12:00:00";
     ed_end_time := "2024-01-15T13:00:00";
     ed_location := None;
     ed_description := None |}.

(** * Properties *)

Section Outcomes.

Lemma bind_returns {A B : Type} (m : outcome A) (k : A -> outcome B) (b : B) :
  bind m k = Returns b -> exists a, m = Returns a /\ k a = Returns b.
Proof.
  destruct m as [a | e]; simpl; intros H; [exists a; auto | discriminate].
Qed.

Lemma try_except_returns {A : Type} (body : outcome A) (h : exn -> A) :
  exists r, try_except body (fun e => Returns (h e)) = Returns r.
Proof.
  destruct body as [a | e]; simpl; eauto.
Qed.

Lemma len_positive {A : Type} (l : list A) :
  (0 <? Z.of_nat (List.length l)) = nonempty l.
Proof.
  destruct l; simpl; [reflexivity | apply Z.ltb_lt; lia].
Qed.

Lemma nonempty_true {A : Type} (l : list A) : nonempty l = true <-> l <> [].
Proof.
  destruct l; simpl; split; intros; congruence.
Qed.

End Outcomes.

Ltac bind_inv H :=
  let a := fresh "v" in
  let Ha := fresh "Hv" in
  apply bind_returns in H; destruct H as (a & Ha & H).

Section ConflictProperties.

Context {platform : Platform}.
Variable self : GoogleCalendarAPI.

Lemma conflicts_loop_listed (events : list event) :
  Forall complete events ->
  forall acc, conflicts_loop events acc
              = Returns (acc ++ flat_map conflict_entry events).
Proof.
  induction 1 as [| e rest He _ IH]; intros acc; simpl.
  - now rewrite app_nil_r.
  - unfold complete, is_timed in He. unfold conflict_entry, getitem_dateTime.
    destruct (dateTime (ev_start e)) as [s |]; [| apply IH].
    destruct (dateTime (ev_end e)) as [t |]; [| now destruct He].
    simpl. rewrite IH, <- app_assoc. reflexivity.
Qed.

Lemma conflicts_loop_incomplete (events : list event) :
  ~ Forall complete events ->
  forall acc, conflicts_loop events acc = Raises (KeyError "dateTime").
Proof.
  induction events as [| e rest IH]; intros Hn acc; simpl.
  - destruct Hn. constructor.
  - unfold getitem_dateTime.
    destruct (dateTime (ev_start e)) as [s |] eqn:Hs.
    + destruct (dateTime (ev_end e)) as [t |] eqn:Ht; simpl; [| reflexivity].
      apply IH. intros Hrest. apply Hn. constructor; [| exact Hrest].
      intros _. congruence.
    + apply IH. intros Hrest. apply Hn. constructor; [| exact Hrest].
      unfold complete, is_timed. rewrite Hs. discriminate.
Qed.

(** The path of [check_conflicts] on which nothing is raised: the
    padded range is sent to the provider and every timed event of the
    answer is reported, in the order of the answer. *)
Lemma check_conflicts_listed (start_time end_time : string) (buffer : Z)
    (start_dt end_dt : datetime) (resp : list_response) :
  fromisoformat (replace_Z start_time) = Some start_dt ->
  fromisoformat (replace_Z end_time) = Some end_dt ->
  events_list (service self) (conflicts_request self start_dt end_dt buffer)
    = Returns resp ->
  Forall complete (get_items resp) ->
  check_conflicts self start_time end_time (Some buffer)
  = Returns (nonempty (flat_map conflict_entry (get_items resp)),
             flat_map conflict_entry (get_items resp)).
Proof.
  intros Hs He Hl Hc.
  unfold check_conflicts, check_conflicts_try, datetime_fromisoformat.
  rewrite Hs, He. simpl. rewrite Hl. simpl.
  rewrite (conflicts_loop_listed _ Hc). simpl.
  now rewrite len_positive.
Qed.

(** Whatever is raised inside, [check_conflicts] returns the pair of
    [False] and a single error entry. *)
Lemma check_conflicts_caught (start_time end_time : string)
    (buffer : option Z) (e : exn) :
  check_conflicts_try self start_time end_time buffer = Raises e ->
  exists msg,
    check_conflicts self start_time end_time buffer
    = Returns (false, [ErrorDict msg]).
Proof.
  intros H. unfold check_conflicts. rewrite H. simpl.
  destruct e; eauto.
Qed.

Lemma check_conflicts_returns (start_time end_time : string)
    (buffer : option Z) :
  exists r, check_conflicts self start_time end_time buffer = Returns r.
Proof.
  unfold check_conflicts.
  destruct (check_conflicts_try self start_time end_time buffer) as [r | e];
    simpl; [eauto |].
  destruct e; eauto.
Qed.

Lemma unparseable_candidate_raises (start_time end_time : string)
    (buffer : option Z) :
  fromisoformat (replace_Z start_time) = None
  \/ fromisoformat (replace_Z end_time) = None ->
  exists e, check_conflicts_try self start_time end_time buffer = Raises e.
Proof.
  intros H. unfold check_conflicts_try, datetime_fromisoformat.
  destruct (match buffer with
            | Some b => Returns b
            | None => env_int "BUFFER_MINUTES" 15
            end) as [b | e]; simpl; [| eauto].
  destruct (fromisoformat (replace_Z start_time)) as [s |]; simpl; [| eauto].
  destruct H as [H | H]; [discriminate |]. rewrite H. simpl. eauto.
Qed.

End ConflictProperties.

Section ConflictClaims.

Context {platform : Platform}.
Variable self : GoogleCalendarAPI.

Lemma conflict_entry_timed (b : event) :
  complete b ->
  ((exists c, conflict_entry b = [c]) <-> is_timed b = true).
Proof.
  unfold complete, conflict_entry, is_timed. intros Hc.
  destruct (dateTime (ev_start b)) as [s |].
  - destruct (dateTime (ev_end b)) as [t |].
    + split; eauto.
    + now destruct Hc.
  - split; [intros (c & H) |]; discriminate.
Qed.

Lemma overlaps_entry (lo hi : datetime) (b : event) :
  overlaps lo hi b = true ->
  is_timed b = true /\ exists c, conflict_entry b = [c].
Proof.
  unfold overlaps, event_span, is_timed, conflict_entry.
  destruct (dateTime (ev_start b)) as [s |]; [| discriminate].
  destruct (dateTime (ev_end b)) as [t |]; [| discriminate].
  intros _. split; eauto.
Qed.

Lemma entry_in_listed (b : event) (c : conflict_dict) (events : list event) :
  In b events -> conflict_entry b = [c] ->
  In c (flat_map conflict_entry events).
Proof.
  intros Hin Hc. apply in_flat_map. exists b. split; [exact Hin |].
  rewrite Hc. now left.
Qed.

(** On a list whose timed events all pass the overlap test, reporting
    every timed event is what the specification's detector returns. *)
Lemma listed_is_spec (start_dt end_dt : datetime) (buffer : Z)
    (events : list event) :
  Forall (fun b => is_timed b = true ->
                   overlaps (sub_minutes start_dt buffer)
                            (add_minutes end_dt buffer) b = true) events ->
  (nonempty (flat_map conflict_entry events), flat_map conflict_entry events)
  = spec_has_conflict start_dt end_dt buffer events.
Proof.
  unfold spec_has_conflict.
  set (lo := sub_minutes start_dt buffer). set (hi := add_minutes end_dt buffer).
  induction 1 as [| b rest Hb _ IH]; [reflexivity |].
  injection IH as IHn IHl. simpl.
  destruct (overlaps lo hi b) eqn:Ho.
  - destruct (overlaps_entry _ _ _ Ho) as (_ & c & Hc).
    simpl. rewrite Hc. simpl. now rewrite IHl.
  - assert (Hnt : conflict_entry b = []).
    { unfold conflict_entry. unfold is_timed in Hb.
      destruct (dateTime (ev_start b)); [| reflexivity].
      specialize (Hb eq_refl). discriminate. }
    rewrite Hnt. simpl. now rewrite IHn, IHl.
Qed.

Lemma no_timed_no_entries (events : list event) :
  Forall (fun b => is_timed b = false) events ->
  flat_map conflict_entry events = [].
Proof.
  induction 1 as [| b rest Hb _ IH]; [reflexivity |].
  simpl. rewrite IH. unfold conflict_entry. unfold is_timed in Hb.
  destruct (dateTime (ev_start b)); [discriminate | reflexivity].
Qed.

(** C3 (amended): [check_conflicts] sends the candidate padded by the
    buffer on both sides, [start - buffer] and [end + buffer], to the
    provider as [timeMin] and [timeMax] and applies no overlap test of
    its own: an event of the provider's answer is reported as a
    conflict if and only if it is timed. The result therefore is the
    specification's one (conflict iff [b.start < end + buffer] and
    [b.end > start - buffer]) whenever every timed event of the answer
    overlaps the padded candidate; it is [(false, [])] when the answer
    has no timed event, and all-day entries are never reported. *)
Theorem check_conflicts_reports_every_timed_event
    (start_time end_time : string) (buffer : Z)
    (start_dt end_dt : datetime) (resp : list_response) :
  fromisoformat (replace_Z start_time) = Some start_dt ->
  fromisoformat (replace_Z end_time) = Some end_dt ->
  events_list (service self) (conflicts_request self start_dt end_dt buffer)
    = Returns resp ->
  Forall complete (get_items resp) ->
  timeMin (conflicts_request self start_dt end_dt buffer)
    = isoformat (sub_minutes start_dt buffer)
  /\ timeMax (conflicts_request self start_dt end_dt buffer)
    = isoformat (add_minutes end_dt buffer)
  /\ exists has conflicts,
      check_conflicts self start_time end_time (Some buffer)
        = Returns (has, conflicts)
      /\ (forall b, In b (get_items resp) ->
            ((exists c, conflict_entry b = [c] /\ In c conflicts)
             <-> is_timed b = true))
      /\ (Forall (fun b => is_timed b = true ->
                           overlaps (sub_minutes start_dt buffer)
                                    (add_minutes end_dt buffer) b = true)
                 (get_items resp) ->
          (has, conflicts)
          = spec_has_conflict start_dt end_dt buffer (get_items resp))
      /\ (Forall (fun b => is_timed b = false) (get_items resp) ->
          (has, conflicts) = (false, [])).
Proof.
  intros Hs He Hl Hc. split; [reflexivity |]. split; [reflexivity |].
  eexists _, _. split; [apply (check_conflicts_listed self _ _ _ _ _ _ Hs He Hl Hc) |].
  split; [| split].
  - intros b Hin. rewrite Forall_forall in Hc.
    rewrite <- (conflict_entry_timed b (Hc b Hin)). split.
    + intros (c & Hb & _). eauto.
    + intros (c & Hb). exists c. split; [exact Hb |].
      now apply (entry_in_listed b).
  - apply listed_is_spec.
  - intros Hn. now rewrite (no_timed_no_entries _ Hn).
Qed.

(** C5 (amended): when nothing is raised, [check_conflicts] returns
    the entries of ALL timed events of the provider's answer, in the
    order of the answer and not just the first, with a boolean that is
    true exactly when that list is non-empty; every timed event of the
    answer that overlaps the padded candidate is among them, and one
    such event makes the boolean true. The list is not restricted to
    the overlapping events. *)
Theorem check_conflicts_returns_all_listed
    (start_time end_time : string) (buffer : Z)
    (start_dt end_dt : datetime) (resp : list_response) :
  fromisoformat (replace_Z start_time) = Some start_dt ->
  fromisoformat (replace_Z end_time) = Some end_dt ->
  events_list (service self) (conflicts_request self start_dt end_dt buffer)
    = Returns resp ->
  Forall complete (get_items resp) ->
  exists has conflicts,
    check_conflicts self start_time end_time (Some buffer)
      = Returns (has, conflicts)
    /\ conflicts = flat_map conflict_entry (get_items resp)
    /\ (has = true <-> conflicts <> [])
    /\ (forall b, In b (get_items resp) ->
          overlaps (sub_minutes start_dt buffer)
                   (add_minutes end_dt buffer) b = true ->
          has = true /\ exists c, conflict_entry b = [c] /\ In c conflicts).
Proof.
  intros Hs He Hl Hc.
  eexists _, _. split; [apply (check_conflicts_listed self _ _ _ _ _ _ Hs He Hl Hc) |].
  split; [reflexivity |]. split; [apply nonempty_true |].
  intros b Hin Ho. destruct (overlaps_entry _ _ _ Ho) as (_ & c & Hb).
  pose proof (entry_in_listed b c _ Hin Hb) as Hin'.
  split; [| eauto].
  apply nonempty_true. intros Hnil. rewrite Hnil in Hin'. destruct Hin'.
Qed.

(** C9: whenever an exception is raised inside [check_conflicts], the
    function returns [False] paired with a one-element list holding an
    'error' entry, and [schedule_event], which branches on the boolean
    alone, goes on to create the event. *)
Theorem check_conflicts_error_reads_as_no_conflict
    (start_time end_time : string) (buffer : option Z) (e : exn) :
  check_conflicts_try self start_time end_time buffer = Raises e ->
  (exists msg,
      check_conflicts self start_time end_time buffer
      = Returns (false, [ErrorDict msg]))
  /\ (forall (d : event_data) (buffer_time : option Z),
        ed_start_time d = start_time ->
        ed_end_time d = end_time ->
        Some (match buffer_time with Some b => b | None => 15 end) = buffer ->
        schedule_event self buffer_time d
        = Returns (CreateEvent (create_event self d))).
Proof.
  intros H. destruct (check_conflicts_caught self _ _ _ _ H) as (msg & Hm).
  split; [eauto |].
  intros d buffer_time Hs He Hb. unfold schedule_event.
  rewrite Hs, He, Hb, Hm. reflexivity.
Qed.

End ConflictClaims.

Section SweepProperties.

Context {platform : Platform}.

Lemma eqb_aware (a b : datetime) :
  Bool.eqb (aware a) (aware b) = true <-> aware a = aware b.
Proof. apply Bool.eqb_true_iff. Qed.

(** One turn of the loop on a timed event, when the run returns. *)
Lemma slots_loop_timed_inv (dm : Z) (e : event) (rest : list event)
    (c : datetime) (acc : list free_slot) (r : datetime * list free_slot) :
  is_timed e = true ->
  slots_loop dm (e :: rest) c acc = Returns r ->
  exists a b,
    event_span e = Some (a, b)
    /\ aware a = aware c /\ aware b = aware c
    /\ slots_loop dm rest
         (if instant c <? instant b then b else c)
         (if dm * 60 <=? instant a - instant c
          then acc ++ [gap_slot (c, a)] else acc)
       = Returns r.
Proof.
  unfold is_timed, event_span. simpl.
  unfold datetime_fromisoformat, getitem_dateTime, dt_max, dt_gt, dt_sub.
  destruct (dateTime (ev_start e)) as [s |]; [intros _ | discriminate].
  destruct (fromisoformat (replace_Z s)) as [a |]; simpl; [| discriminate].
  destruct (Bool.eqb (aware a) (aware c)) eqn:Ha; simpl; [| discriminate].
  destruct (dateTime (ev_end e)) as [t |]; simpl; [| discriminate].
  destruct (fromisoformat (replace_Z t)) as [b |]; simpl; [| discriminate].
  destruct (Bool.eqb (aware b) (aware c)) eqn:Hb; simpl; [| discriminate].
  intros H. exists a, b. apply eqb_aware in Ha, Hb. auto.
Qed.

(** One turn of the loop on a timed event whose timestamps parse to
    values of the cursor's kind. *)
Lemma slots_loop_timed_step (dm : Z) (e : event) (rest : list event)
    (c a b : datetime) (acc : list free_slot) :
  is_timed e = true ->
  event_span e = Some (a, b) ->
  aware a = aware c -> aware b = aware c ->
  slots_loop dm (e :: rest) c acc
  = slots_loop dm rest
      (if instant c <? instant b then b else c)
      (if dm * 60 <=? instant a - instant c
       then acc ++ [gap_slot (c, a)] else acc).
Proof.
  unfold is_timed, event_span. simpl.
  unfold datetime_fromisoformat, getitem_dateTime, dt_max, dt_gt, dt_sub.
  destruct (dateTime (ev_start e)) as [s |]; [intros _ | discriminate].
  destruct (dateTime (ev_end e)) as [t |]; [| discriminate].
  destruct (fromisoformat (replace_Z s)) as [a' |]; [| discriminate].
  simpl.
  destruct (fromisoformat (replace_Z t)) as [b' |]; [| discriminate].
  intros H Ha Hb. injection H as -> ->.
  apply eqb_aware in Ha, Hb. rewrite Ha. simpl. rewrite Hb. reflexivity.
Qed.

Lemma slots_loop_all_day (dm : Z) (e : event) (rest : list event)
    (c : datetime) (acc : list free_slot) :
  is_timed e = false ->
  slots_loop dm (e :: rest) c acc = slots_loop dm rest c acc.
Proof.
  unfold is_timed. simpl.
  destruct (dateTime (ev_start e)); [discriminate | reflexivity].
Qed.

Lemma all_day_no_span (e : event) : is_timed e = false -> event_span e = None.
Proof.
  unfold is_timed, event_span.
  destruct (dateTime (ev_start e)); [discriminate | reflexivity].
Qed.

(** A run of the loop that returns ends with the cursor and the gaps
    of [sweep_gaps]. *)
Lemma slots_loop_refines (dm : Z) (events : list event) :
  forall c acc c' acc',
    slots_loop dm events c acc = Returns (c', acc') ->
    c' = fst (sweep_gaps dm events c)
    /\ acc' = acc ++ map gap_slot (snd (sweep_gaps dm events c)).
Proof.
  induction events as [| e rest IH]; intros c acc c' acc' H.
  - simpl in *. injection H as <- <-. now rewrite app_nil_r.
  - destruct (is_timed e) eqn:Ht.
    + destruct (slots_loop_timed_inv _ _ _ _ _ _ Ht H)
        as (a & b & Hspan & _ & _ & Hrest).
      apply IH in Hrest. destruct Hrest as (Hc & Hacc).
      simpl. rewrite Hspan.
      destruct (sweep_gaps dm rest (if instant c <? instant b then b else c))
        as [last found].
      simpl in *. split; [exact Hc |]. subst acc'.
      destruct (dm * 60 <=? instant a - instant c); simpl;
        [now rewrite <- app_assoc | reflexivity].
    + rewrite (slots_loop_all_day _ _ _ _ _ Ht) in H.
      simpl. rewrite (all_day_no_span _ Ht). now apply IH.
Qed.

(** The loop keeps the kind, naive or aware, of the cursor. *)
Lemma slots_loop_aware (dm : Z) (events : list event) :
  forall c acc c' acc',
    slots_loop dm events c acc = Returns (c', acc') -> aware c' = aware c.
Proof.
  induction events as [| e rest IH]; intros c acc c' acc' H.
  - simpl in H. now injection H as <- _.
  - destruct (is_timed e) eqn:Ht.
    + destruct (slots_loop_timed_inv _ _ _ _ _ _ Ht H)
        as (a & b & _ & _ & Hb & Hrest).
      apply IH in Hrest. rewrite Hrest.
      now destruct (instant c <? instant b).
    + rewrite (slots_loop_all_day _ _ _ _ _ Ht) in H. now apply IH in H.
Qed.

(** A [sweep] that returns renders [window_gaps]. *)
Lemma sweep_refines (s e : datetime) (dm : Z) (events : list event)
    (out : list free_slot) :
  sweep s e dm events = Returns out ->
  out = map gap_slot (window_gaps s e dm events).
Proof.
  unfold sweep, window_gaps. intros H.
  bind_inv H. destruct v as [c acc].
  apply slots_loop_refines in Hv. destruct Hv as (Hc & Hacc). simpl in Hacc.
  destruct (sweep_gaps dm events s) as [last found]. simpl in *. subst.
  unfold dt_sub in H. destruct (Bool.eqb (aware e) (aware last)); simpl in H;
    [| discriminate].
  injection H as <-.
  destruct (dm * 60 <=? instant e - instant last);
    [now rewrite map_app | reflexivity].
Qed.

End SweepProperties.

Section GapProperties.

Context {platform : Platform}.

Lemma busy_start_cons (e : event) (rest : list event) (d : datetime) :
  busy_start rest d -> busy_start (e :: rest) d.
Proof.
  intros (x & b & Hin & Ht & Hs). exists x, b. auto using in_cons.
Qed.

Lemma busy_end_cons (e : event) (rest : list event) (d : datetime) :
  busy_end rest d -> busy_end (e :: rest) d.
Proof.
  intros (x & a & Hin & Ht & Hs). exists x, a. auto using in_cons.
Qed.

Lemma span_timed (e : event) (a b : datetime) :
  event_span e = Some (a, b) -> is_timed e = true.
Proof.
  unfold event_span, is_timed.
  destruct (dateTime (ev_start e)); [reflexivity | discriminate].
Qed.

Lemma busy_start_head (e : event) (rest : list event) (a b : datetime) :
  event_span e = Some (a, b) -> busy_start (e :: rest) a.
Proof.
  intros H. exists e, b. pose proof (span_timed _ _ _ H). simpl; auto.
Qed.

Lemma busy_end_head (e : event) (rest : list event) (a b : datetime) :
  event_span e = Some (a, b) -> busy_end (e :: rest) b.
Proof.
  intros H. exists e, a. pose proof (span_timed _ _ _ H). simpl; auto.
Qed.

(** The cursor never moves backward: after the sweep it is where it
    was or at the end of a busy interval, and no earlier. *)
Lemma sweep_gaps_cursor (dm : Z) (events : list event) :
  forall c,
    instant c <= instant (fst (sweep_gaps dm events c))
    /\ (fst (sweep_gaps dm events c) = c
        \/ busy_end events (fst (sweep_gaps dm events c))).
Proof.
  induction events as [| e rest IH]; intros c; simpl.
  - split; [lia | now left].
  - destruct (event_span e) as [[a b] |] eqn:Hspan.
    + specialize (IH (if instant c <? instant b then b else c)).
      destruct (sweep_gaps dm rest (if instant c <? instant b then b else c))
        as [last found]. simpl in *.
      destruct IH as (Hle & Hlast).
      destruct (instant c <? instant b) eqn:Hcb.
      * apply Z.ltb_lt in Hcb. split; [lia |]. right.
        destruct Hlast as [-> | Hlast];
          [now apply (busy_end_head e rest a) | now apply busy_end_cons].
      * split; [lia |].
        destruct Hlast as [-> | Hlast]; [now left | right; now apply busy_end_cons].
    + destruct (IH c) as (Hle & Hlast). split; [exact Hle |].
      destruct Hlast as [Hlast | Hlast]; [now left | right; now apply busy_end_cons].
Qed.

Lemma sweep_gaps_found (dm : Z) (events : list event) :
  forall c, Forall (loop_gap dm events c) (snd (sweep_gaps dm events c)).
Proof.
  induction events as [| e rest IH]; intros c; simpl; [constructor |].
  destruct (event_span e) as [[a b] |] eqn:Hspan.
  - specialize (IH (if instant c <? instant b then b else c)).
    destruct (sweep_gaps dm rest (if instant c <? instant b then b else c))
      as [last found]. simpl in *.
    assert (Hrest : Forall (loop_gap dm (e :: rest) c) found).
    { eapply Forall_impl; [| exact IH].
      intros g (Hd & Hc & Hfrom & Hto). unfold loop_gap.
      split; [exact Hd |]. split.
      - destruct (instant c <? instant b) eqn:Hcb; [| exact Hc].
        apply Z.ltb_lt in Hcb. lia.
      - split; [| now apply busy_start_cons].
        destruct Hfrom as [Hfrom | Hfrom]; [| right; now apply busy_end_cons].
        destruct (instant c <? instant b); [| now left].
        right. rewrite Hfrom. now apply (busy_end_head e rest a). }
    destruct (dm * 60 <=? instant a - instant c) eqn:Hgap; [| exact Hrest].
    constructor; [| exact Hrest].
    apply Z.leb_le in Hgap. unfold loop_gap, gap_seconds. simpl.
    split; [exact Hgap |]. split; [lia |]. split; [now left |].
    now apply (busy_start_head e rest a b).
  - eapply Forall_impl; [| exact (IH c)].
    intros g (Hd & Hc & Hfrom & Hto). unfold loop_gap.
    repeat split; auto using busy_start_cons.
    destruct Hfrom; [now left | right; now apply busy_end_cons].
Qed.

(** With busy intervals whose start is not after their end, the gaps
    come in chronological order, each ending before the next starts,
    and all of them end at or before the cursor. *)
Lemma sweep_gaps_sorted (dm : Z) (events : list event) :
  Forall ordered_span events ->
  forall c,
    StronglySorted precedes (snd (sweep_gaps dm events c))
    /\ Forall (fun g => instant (snd g) <= instant (fst (sweep_gaps dm events c)))
              (snd (sweep_gaps dm events c)).
Proof.
  induction 1 as [| e rest He _ IH]; intros c; simpl;
    [split; constructor |].
  destruct (event_span e) as [[a b] |] eqn:Hspan; [| apply IH].
  set (next := if instant c <? instant b then b else c).
  destruct (IH next) as (Hsorted & Hends).
  pose proof (sweep_gaps_cursor dm rest next) as (Hnext & _).
  pose proof (sweep_gaps_found dm rest next) as Hfound.
  destruct (sweep_gaps dm rest next) as [last found]. simpl in *.
  destruct (dm * 60 <=? instant a - instant c); [| now split].
  assert (Hab : instant a <= instant b) by now apply He.
  assert (Hbn : instant b <= instant next).
  { unfold next. destruct (instant c <? instant b) eqn:Hcb; [lia |].
    apply Z.ltb_ge in Hcb. lia. }
  split.
  - constructor; [exact Hsorted |].
    eapply Forall_impl; [| exact Hfound].
    intros g (_ & Hc & _). unfold precedes. simpl. lia.
  - constructor; [simpl; lia | exact Hends].
Qed.

Lemma StronglySorted_snoc {A : Type} (R : A -> A -> Prop) (l : list A) (x : A) :
  StronglySorted R l -> Forall (fun y => R y x) l ->
  StronglySorted R (l ++ [x]).
Proof.
  induction 1 as [| y l Hl IH Hy]; intros Hx; simpl.
  - repeat constructor.
  - inversion Hx; subst. constructor; [now apply IH |].
    apply Forall_app. split; [exact Hy | now constructor].
Qed.

(** The gaps of a window, in chronological order and disjoint. *)
Lemma window_gaps_sorted (s e : datetime) (dm : Z) (events : list event) :
  Forall ordered_span events ->
  StronglySorted precedes (window_gaps s e dm events).
Proof.
  intros Ho. unfold window_gaps.
  destruct (sweep_gaps_sorted dm events Ho s) as (Hsorted & Hends).
  destruct (sweep_gaps dm events s) as [last found]. simpl in *.
  destruct (dm * 60 <=? instant e - instant last); [| exact Hsorted].
  apply StronglySorted_snoc; [exact Hsorted |].
  eapply Forall_impl; [| exact Hends]. intros g Hg. exact Hg.
Qed.

(** Every gap of a window is at least the requested duration long. *)
Lemma window_gaps_long (s e : datetime) (dm : Z) (events : list event) :
  Forall (fun g => dm * 60 <= gap_seconds g) (window_gaps s e dm events).
Proof.
  unfold window_gaps.
  pose proof (sweep_gaps_found dm events s) as Hfound.
  destruct (sweep_gaps dm events s) as [last found]. simpl in *.
  assert (Hl : Forall (fun g => dm * 60 <= gap_seconds g) found).
  { eapply Forall_impl; [| exact Hfound]. now intros g (Hd & _). }
  destruct (dm * 60 <=? instant e - instant last) eqn:Hgap; [| exact Hl].
  apply Forall_app. split; [exact Hl |]. constructor; [| constructor].
  apply Z.leb_le in Hgap. exact Hgap.
Qed.

(** The duration in minutes that the code stores in a slot. *)
Lemma gap_slot_minutes (dm : Z) (g : gap) :
  0 < dm -> dm * 60 <= gap_seconds g ->
  dm <= slot_duration_minutes (gap_slot g).
Proof.
  intros Hdm Hg. unfold gap_slot, slot_dict. simpl.
  rewrite Z.quot_div_nonneg by lia.
  apply Z.div_le_lower_bound; lia.
Qed.

End GapProperties.

Section FreeSlotProperties.

Context {platform : Platform}.
Variable self : GoogleCalendarAPI.

Lemma localize_aware (tz : tzinfo) (d d' : datetime) :
  localize tz d = Returns d' -> aware d' = true.
Proof.
  unfold localize. destruct (utcoffset d); [discriminate |].
  now intros [= <-].
Qed.

(** Both ends of the working-hours window are aware values. *)
Lemma work_window_aware (date : string) (wsh weh : Z) (s e : datetime) :
  work_window self date wsh weh = Returns (s, e) ->
  aware s = true /\ aware e = true.
Proof.
  unfold work_window. intros H.
  bind_inv H. bind_inv H. bind_inv H. bind_inv H. bind_inv H.
  injection H as <- <-.
  split; eapply localize_aware; eassumption.
Qed.

Lemma find_free_slots_returns (date : string) (dm wsh weh : Z) :
  exists out, find_free_slots self date dm wsh weh = Returns out.
Proof.
  unfold find_free_slots.
  apply (try_except_returns _ (fun _ => [])).
Qed.

(** [find_free_slots] once the window is computed and the provider
    has answered. *)
Lemma find_free_slots_listed (date : string) (dm wsh weh : Z)
    (s e : datetime) (resp : list_response) :
  work_window self date wsh weh = Returns (s, e) ->
  events_list (service self) (slots_request self s e) = Returns resp ->
  find_free_slots self date dm wsh weh
  = try_except (sweep s e dm (get_items resp)) (fun _ => Returns []).
Proof.
  intros Hw Hl. unfold find_free_slots, find_free_slots_try.
  rewrite Hw. simpl. rewrite Hl. reflexivity.
Qed.

(** The result is the empty list, or the gaps of the window rendered. *)
Lemma find_free_slots_cases (date : string) (dm wsh weh : Z) :
  find_free_slots self date dm wsh weh = Returns []
  \/ exists s e resp,
      work_window self date wsh weh = Returns (s, e)
      /\ events_list (service self) (slots_request self s e) = Returns resp
      /\ find_free_slots self date dm wsh weh
         = Returns (map gap_slot (window_gaps s e dm (get_items resp))).
Proof.
  destruct (work_window self date wsh weh) as [[s e] | ex] eqn:Hw;
    [| left; unfold find_free_slots, find_free_slots_try; now rewrite Hw].
  destruct (events_list (service self) (slots_request self s e))
    as [resp | ex] eqn:Hl;
    [| left; unfold find_free_slots, find_free_slots_try;
       rewrite Hw; simpl; now rewrite Hl].
  rewrite (find_free_slots_listed _ _ _ _ _ _ _ Hw Hl).
  destruct (sweep s e dm (get_items resp)) as [out | ex] eqn:Hsweep;
    [| now left].
  right. exists s, e, resp. repeat split; auto. simpl.
  now rewrite (sweep_refines _ _ _ _ _ Hsweep).
Qed.

(** All-day entries are skipped: the loop on a list is the loop on
    its timed events. *)
Lemma slots_loop_timed_only (dm : Z) (events : list event) :
  forall c acc,
    slots_loop dm events c acc = slots_loop dm (filter is_timed events) c acc.
Proof.
  induction events as [| e rest IH]; intros c acc; [reflexivity |].
  cbn [filter]. destruct (is_timed e) eqn:Ht.
  - unfold is_timed in Ht. simpl.
    destruct (dateTime (ev_start e)) as [s |]; [| discriminate].
    destruct (datetime_fromisoformat (replace_Z s)) as [a | ex];
      simpl; [| reflexivity].
    destruct (dt_sub a c) as [gap_s | ex]; simpl; [| reflexivity].
    destruct (getitem_dateTime (ev_end e)) as [t | ex]; simpl; [| reflexivity].
    destruct (datetime_fromisoformat (replace_Z t)) as [b | ex];
      simpl; [| reflexivity].
    destruct (dt_max c b) as [next | ex]; simpl; [| reflexivity].
    apply IH.
  - rewrite slots_loop_all_day by exact Ht. apply IH.
Qed.

Lemma sweep_timed_only (s e : datetime) (dm : Z) (events : list event) :
  sweep s e dm events = sweep s e dm (filter is_timed events).
Proof.
  unfold sweep. now rewrite slots_loop_timed_only.
Qed.

Lemma slots_loop_no_timed (dm : Z) (events : list event) :
  Forall (fun b => is_timed b = false) events ->
  forall c acc, slots_loop dm events c acc = Returns (c, acc).
Proof.
  induction 1 as [| e rest He _ IH]; intros c acc; [reflexivity |].
  rewrite slots_loop_all_day by exact He. apply IH.
Qed.

(** With no timed event the window itself is the only candidate. *)
Lemma sweep_no_timed (s e : datetime) (dm : Z) (events : list event) :
  Forall (fun b => is_timed b = false) events ->
  aware s = true -> aware e = true ->
  sweep s e dm events
  = Returns (if dm * 60 <=? instant e - instant s
             then [gap_slot (s, e)] else []).
Proof.
  intros Hn Hs He. unfold sweep.
  rewrite (slots_loop_no_timed dm events Hn). simpl.
  unfold dt_sub. rewrite He, Hs. reflexivity.
Qed.

End FreeSlotProperties.

Section FreeSlotClaims.

Context {platform : Platform}.
Variable self : GoogleCalendarAPI.

(** C4: for a positive minimum duration and busy intervals whose start
    is not after their end, [find_free_slots] returns slots that are
    each at least the minimum duration long (in seconds on the time
    line and in the stored minutes), pairwise non-overlapping and in
    chronological order; with no timed busy interval and a window at
    least that long the result is the single slot spanning the window;
    and the empty list is a possible result. *)
Theorem find_free_slots_slots_long_disjoint_ordered :
  (forall (date : string) (dm wsh weh : Z),
      0 < dm ->
      (forall req resp,
          events_list (service self) req = Returns resp ->
          Forall ordered_span (get_items resp)) ->
      exists gaps,
        find_free_slots self date dm wsh weh = Returns (map gap_slot gaps)
        /\ Forall (fun g => dm * 60 <= gap_seconds g) gaps
        /\ Forall (fun slot => dm <= slot_duration_minutes slot)
                  (map gap_slot gaps)
        /\ StronglySorted precedes gaps)
  /\ (forall (date : string) (dm wsh weh : Z) (s e : datetime)
             (resp : list_response),
        work_window self date wsh weh = Returns (s, e) ->
        events_list (service self) (slots_request self s e) = Returns resp ->
        Forall (fun b => is_timed b = false) (get_items resp) ->
        dm * 60 <= instant e - instant s ->
        find_free_slots self date dm wsh weh = Returns [gap_slot (s, e)])
  /\ @find_free_slots reference_platform
       (api_over (fixed_service [spanning_event])) "2024-01-15" 15 9 18
     = Returns [].
Proof.
  split; [| split].
  - intros date dm wsh weh Hdm Hord.
    destruct (find_free_slots_cases self date dm wsh weh)
      as [Hnone | (s & e & resp & Hw & Hl & Hout)].
    + exists []. rewrite Hnone. repeat split; constructor.
    + exists (window_gaps s e dm (get_items resp)).
      pose proof (window_gaps_long s e dm (get_items resp)) as Hlong.
      split; [exact Hout |]. split; [exact Hlong |]. split.
      * apply Forall_map. eapply Forall_impl; [| exact Hlong].
        intros g Hg. now apply gap_slot_minutes.
      * apply window_gaps_sorted. eapply Hord; eassumption.
  - intros date dm wsh weh s e resp Hw Hl Hn Hlen.
    rewrite (find_free_slots_listed self _ _ _ _ _ _ _ Hw Hl).
    destruct (work_window_aware self _ _ _ _ _ Hw) as (Hs & He).
    rewrite (sweep_no_timed _ _ _ _ Hn Hs He).
    apply Z.leb_le in Hlen. now rewrite Hlen.
  - reflexivity.
Qed.

(** C8: for the window 09:00-18:00, the single busy interval
    08:00-19:00 and a minimum duration of 15 minutes the result is the
    empty list, the cursor having advanced to 19:00, the end of the
    busy interval; and in every run the cursor never moves backward
    (it ends where it was or at the end of a busy interval) and each
    slot the loop emits is a gap of at least the minimum duration from
    a cursor position to the start of a busy interval. *)
Theorem find_free_slots_spanning_event_and_cursor :
  @find_free_slots reference_platform
    (api_over (@listing_service reference_platform [spanning_event]))
    "2024-01-15" 15 9 18
  = Returns []
  /\ @slots_loop reference_platform 15 [spanning_event] nine []
     = Returns (nineteen, [])
  /\ (forall (dm : Z) (events : list event) (c c' : datetime)
             (acc acc' : list free_slot),
        slots_loop dm events c acc = Returns (c', acc') ->
        instant c <= instant c'
        /\ (c' = c \/ busy_end events c')
        /\ exists gaps,
            acc' = acc ++ map gap_slot gaps
            /\ Forall (loop_gap dm events c) gaps).
Proof.
  split; [reflexivity |]. split; [reflexivity |].
  intros dm events c c' acc acc' H.
  apply slots_loop_refines in H. destruct H as (-> & ->).
  destruct (sweep_gaps_cursor dm events c) as (Hle & Hlast).
  split; [exact Hle |]. split; [exact Hlast |].
  exists (snd (sweep_gaps dm events c)). split; [reflexivity |].
  apply sweep_gaps_found.
Qed.

(** C10: there is an input, a busy interval starting at 19:00 after
    the window's end at 18:00, for which [find_free_slots] emits a
    slot whose end is that busy start and so lies past the window's
    end; in general the end of every slot that the loop emits is the
    start of a busy interval as it was read, with no clipping. *)
Theorem find_free_slots_slot_past_window_end :
  (exists (busy : event) (window_end busy_from : datetime) (slot : free_slot),
      (exists s, @work_window reference_platform
                   (api_over (fixed_service [busy])) "2024-01-15" 9 18
                 = Returns (s, window_end))
      /\ (exists b, @event_span reference_platform busy = Some (busy_from, b))
      /\ instant window_end < instant busy_from
      /\ @find_free_slots reference_platform
           (api_over (fixed_service [busy])) "2024-01-15" 30 9 18
         = Returns [slot]
      /\ slot_end slot = @isoformat reference_platform busy_from)
  /\ (forall (dm : Z) (events : list event) (c c' : datetime)
             (acc acc' : list free_slot),
        slots_loop dm events c acc = Returns (c', acc') ->
        exists gaps,
          acc' = acc ++ map gap_slot gaps
          /\ Forall (fun g => busy_start events (snd g)
                              /\ slot_end (gap_slot g) = isoformat (snd g))
                    gaps).
Proof.
  split.
  - exists dinner_event, eighteen, nineteen.
    eexists. split; [eexists; reflexivity |].
    split; [eexists; reflexivity |].
    split; [reflexivity |]. split; reflexivity.
  - intros dm events c c' acc acc' H.
    apply slots_loop_refines in H. destruct H as (_ & ->).
    exists (snd (sweep_gaps dm events c)). split; [reflexivity |].
    eapply Forall_impl; [| apply (sweep_gaps_found dm events c)].
    intros g (_ & _ & _ & Hto). split; [exact Hto | reflexivity].
Qed.

End FreeSlotClaims.

Section SortedListing.

Context {platform : Platform}.

Lemma in_insert_sorted {A : Type} (leb : A -> A -> bool) (x y : A) (l : list A) :
  In y (insert_sorted leb x l) <-> y = x \/ In y l.
Proof.
  induction l as [| z l IH]; simpl.
  - intuition.
  - destruct (leb x z); simpl; [intuition |].
    rewrite IH. intuition.
Qed.

Lemma in_sort_with {A : Type} (leb : A -> A -> bool) (y : A) (l : list A) :
  In y (sort_with leb l) <-> In y l.
Proof.
  induction l as [| x l IH]; simpl; [reflexivity |].
  rewrite in_insert_sorted, IH. intuition.
Qed.

Lemma datetime_eq (a b : datetime) (off : Z) :
  utcoffset a = Some off -> utcoffset b = Some off ->
  instant a = instant b -> a = b.
Proof.
  destruct a as [wa oa], b as [wb ob]. unfold instant. simpl.
  intros -> -> H. f_equal. lia.
Qed.

(** Two busy intervals with the same start are swept with the same
    result in either order, when the second ends strictly before the
    first. *)
Lemma sweep_gaps_swap (dm : Z) (x y : event) (a bx b_y : datetime)
    (rest : list event) (c : datetime) :
  0 < dm ->
  event_span x = Some (a, bx) -> event_span y = Some (a, b_y) ->
  instant a <= instant bx -> instant a <= instant b_y ->
  instant b_y < instant bx ->
  sweep_gaps dm (x :: y :: rest) c = sweep_gaps dm (y :: x :: rest) c.
Proof.
  intros Hdm Hx Hy Hax Hay Hlt. simpl. rewrite Hx, Hy.
  destruct (Z.ltb_spec (instant c) (instant bx));
    destruct (Z.ltb_spec (instant c) (instant b_y)); try lia;
    try (destruct (Z.ltb_spec (instant bx) (instant b_y)); try lia);
    try (destruct (Z.ltb_spec (instant b_y) (instant bx)); try lia);
    try (destruct (Z.ltb_spec (instant c) (instant bx)); try lia);
    match goal with
    | |- context [sweep_gaps dm rest ?d] =>
        destruct (sweep_gaps dm rest d) as [last found]
    end;
    repeat match goal with
      | |- context [?u <=? ?v] => destruct (Z.leb_spec u v); try lia
      end;
    reflexivity.
Qed.

Lemma sweep_gaps_insert (dm off : Z) (x : event) (a bx : datetime) :
  0 < dm ->
  event_span x = Some (a, bx) -> utcoffset a = Some off ->
  instant a <= instant bx ->
  forall (m : list event) (c : datetime),
    Forall (follows off a) m ->
    sweep_gaps dm (x :: m) c
    = sweep_gaps dm (insert_sorted start_then_end_leb x m) c.
Proof.
  intros Hdm Hx Hoff Hax. induction m as [| y r IH]; intros c Hm;
    [reflexivity |].
  inversion Hm as [| ? ? ((ay & b_y & Hy & Hoy & _ & Hay) & Hle) Hr]; subst.
  cbn [insert_sorted].
  destruct (start_then_end_leb x y) eqn:Hleb; [reflexivity |].
  unfold start_then_end_leb, start_key, end_key in Hleb, Hle.
  rewrite Hx, Hy in Hleb. rewrite Hy in Hle.
  apply orb_false_iff in Hleb. destruct Hleb as (Hlt & Heq).
  apply Z.ltb_ge in Hlt.
  assert (Hsame : instant a = instant ay) by lia.
  apply Z.eqb_eq in Hsame as Hsame'. rewrite Hsame' in Heq. simpl in Heq.
  apply Z.leb_gt in Heq.
  assert (ay = a) by (symmetry; now apply (datetime_eq a ay off)). subst ay.
  rewrite (sweep_gaps_swap dm x y a bx b_y r c Hdm Hx Hy Hax Hay Heq).
  change (sweep_gaps dm (y :: x :: r) c)
    with (match event_span y with
          | Some (event_start, event_end) =>
              let next := if instant c <? instant event_end
                          then event_end else c in
              let '(last, found) := sweep_gaps dm (x :: r) next in
              (last, if dm * 60 <=? instant event_start - instant c
                     then (c, event_start) :: found else found)
          | None => sweep_gaps dm (x :: r) c
          end).
  cbn [sweep_gaps]. rewrite Hy. cbv zeta.
  now rewrite <- (IH _ Hr).
Qed.

Lemma sweep_gaps_sorted_listing (dm off : Z) (l : list event) :
  0 < dm ->
  Forall (listed_in_zone off) l ->
  StronglySorted by_start l ->
  forall c,
    sweep_gaps dm l c = sweep_gaps dm (sort_with start_then_end_leb l) c.
Proof.
  intros Hdm Hl Hs. induction Hs as [| x l Hs IH Hx]; intros c; [reflexivity |].
  inversion Hl as [| ? ? (a & b & Hspan & Hoff & _ & Hab) Hl']; subst.
  cbn [sort_with fold_right].
  change (fold_right (insert_sorted start_then_end_leb) [] l)
    with (sort_with start_then_end_leb l).
  rewrite <- (sweep_gaps_insert dm off x a b Hdm Hspan Hoff Hab).
  - simpl. rewrite Hspan. now rewrite (IH Hl').
  - apply Forall_forall. intros y Hy. apply in_sort_with in Hy.
    rewrite Forall_forall in Hl', Hx. split; [now apply Hl' |].
    specialize (Hx y Hy). unfold by_start, start_key in Hx.
    now rewrite Hspan in Hx.
Qed.

(** On such a listing nothing is raised: the loop returns the cursor
    and the gaps of [sweep_gaps]. *)
Lemma slots_loop_total (dm off : Z) (l : list event) :
  Forall (listed_in_zone off) l ->
  forall c acc,
    aware c = true ->
    slots_loop dm l c acc
    = Returns (fst (sweep_gaps dm l c),
               acc ++ map gap_slot (snd (sweep_gaps dm l c))).
Proof.
  induction 1 as [| e rest (a & b & Hspan & Hoff & Hb & _) _ IH];
    intros c acc Hc; simpl.
  - now rewrite app_nil_r.
  - assert (Ha : aware a = true) by (unfold aware; now rewrite Hoff).
    pose proof (slots_loop_timed_step dm e rest c a b acc
                  (span_timed _ _ _ Hspan) Hspan) as Hstep.
    simpl in Hstep. rewrite Hstep by congruence.
    rewrite Hspan. rewrite IH by (now destruct (instant c <? instant b)).
    destruct (sweep_gaps dm rest (if instant c <? instant b then b else c))
      as [last found]. simpl.
    destruct (dm * 60 <=? instant a - instant c); simpl;
      [now rewrite <- app_assoc | reflexivity].
Qed.

Lemma sweep_sorted_listing (s e : datetime) (dm off : Z) (l : list event) :
  0 < dm -> aware s = true ->
  Forall (listed_in_zone off) l ->
  StronglySorted by_start l ->
  sweep s e dm l = sweep s e dm (sort_with start_then_end_leb l).
Proof.
  intros Hdm Hs Hl Hsorted. unfold sweep.
  assert (Hl' : Forall (listed_in_zone off) (sort_with start_then_end_leb l)).
  { rewrite Forall_forall in *. intros y Hy. apply Hl.
    now apply in_sort_with in Hy. }
  rewrite (slots_loop_total dm off l Hl s [] Hs).
  rewrite (slots_loop_total dm off _ Hl' s [] Hs).
  now rewrite (sweep_gaps_sorted_listing dm off l Hdm Hl Hsorted).
Qed.

End SortedListing.

Section ListingClaims.

Context {platform : Platform}.
Variable self : GoogleCalendarAPI.

(** A run of the loop that returns has read both timestamps of every
    timed event. *)
Lemma slots_loop_read_all (dm : Z) (events : list event) :
  forall c acc r,
    slots_loop dm events c acc = Returns r ->
    forall b, In b events -> is_timed b = true -> event_span b <> None.
Proof.
  induction events as [| e rest IH]; intros c acc r H b Hin Hb;
    [destruct Hin |].
  destruct (is_timed e) eqn:Ht.
  - destruct (slots_loop_timed_inv _ _ _ _ _ _ Ht H)
      as (a & b' & Hspan & _ & _ & Hrest).
    destruct Hin as [<- | Hin]; [congruence |].
    now apply (IH _ _ _ Hrest).
  - rewrite (slots_loop_all_day _ _ _ _ _ Ht) in H.
    destruct Hin as [<- | Hin]; [congruence |].
    now apply (IH _ _ _ H).
Qed.

Lemma sweep_unreadable (s e : datetime) (dm : Z) (events : list event)
    (b : event) :
  In b events -> is_timed b = true -> event_span b = None ->
  exists ex, sweep s e dm events = Raises ex.
Proof.
  intros Hin Hb Hnone. unfold sweep.
  destruct (slots_loop dm events s []) as [r | ex] eqn:H; simpl; [| eauto].
  now destruct (slots_loop_read_all _ _ _ _ _ H b Hin Hb).
Qed.

(** C1 (amended): [find_free_slots] excludes the all-day entries and
    runs the cursor sweep over the remaining busy intervals in the
    order in which the provider lists them; it does not sort them but
    asks the provider for [orderBy = "startTime"]. Its output on a
    listing is its output on the sorted list (start time ascending,
    ties by end time ascending) when the timed entries are listed by
    start time, the minimum duration is positive and each timed entry
    has a start not after its end, with the offset of one time zone. *)
Theorem find_free_slots_sweeps_in_listed_order
    (date : string) (dm wsh weh : Z) (s e : datetime) (resp : list_response) :
  work_window self date wsh weh = Returns (s, e) ->
  events_list (service self) (slots_request self s e) = Returns resp ->
  orderBy (slots_request self s e) = "startTime"
  /\ find_free_slots self date dm wsh weh
     = try_except (sweep s e dm (filter is_timed (get_items resp)))
                  (fun _ => Returns [])
  /\ (forall off,
        0 < dm ->
        Forall (listed_in_zone off) (filter is_timed (get_items resp)) ->
        StronglySorted by_start (filter is_timed (get_items resp)) ->
        find_free_slots self date dm wsh weh
        = try_except (sweep s e dm (spec_sorted_busy (get_items resp)))
                     (fun _ => Returns [])).
Proof.
  intros Hw Hl. split; [reflexivity |].
  rewrite (find_free_slots_listed self _ _ _ _ _ _ _ Hw Hl).
  rewrite sweep_timed_only. split; [reflexivity |].
  intros off Hdm Hzone Hsorted. unfold spec_sorted_busy.
  destruct (work_window_aware self _ _ _ _ _ Hw) as (Hs & _).
  now rewrite (sweep_sorted_listing s e dm off _ Hdm Hs Hzone Hsorted).
Qed.

(** C2 (amended): neither function raises to its caller. When a
    timestamp of the candidate fails to parse, [check_conflicts]
    catches the exception and returns [False] with a single 'error'
    entry; when a timestamp of a listed timed event cannot be read,
    [find_free_slots] catches the exception and returns the empty
    list. No check of start against end is made: a candidate whose end
    is not after its start is sent to the provider and answered like
    any other. *)
Theorem malformed_input_is_caught :
  (forall (start_time end_time : string) (buffer : option Z),
      (exists r, check_conflicts self start_time end_time buffer = Returns r)
      /\ (fromisoformat (replace_Z start_time) = None
          \/ fromisoformat (replace_Z end_time) = None ->
          exists msg,
            check_conflicts self start_time end_time buffer
            = Returns (false, [ErrorDict msg])))
  /\ (forall (date : string) (dm wsh weh : Z),
        (exists out, find_free_slots self date dm wsh weh = Returns out)
        /\ (forall s e resp b,
              work_window self date wsh weh = Returns (s, e) ->
              events_list (service self) (slots_request self s e)
                = Returns resp ->
              In b (get_items resp) -> is_timed b = true ->
              event_span b = None ->
              find_free_slots self date dm wsh weh = Returns []))
  /\ (forall (start_time end_time : string) (buffer : Z)
             (start_dt end_dt : datetime) (resp : list_response),
        fromisoformat (replace_Z start_time) = Some start_dt ->
        fromisoformat (replace_Z end_time) = Some end_dt ->
        instant end_dt <= instant start_dt ->
        events_list (service self) (conflicts_request self start_dt end_dt buffer)
          = Returns resp ->
        Forall complete (get_items resp) ->
        check_conflicts self start_time end_time (Some buffer)
        = Returns (nonempty (flat_map conflict_entry (get_items resp)),
                   flat_map conflict_entry (get_items resp))).
Proof.
  split; [| split].
  - intros start_time end_time buffer.
    split; [apply check_conflicts_returns |].
    intros Hbad.
    destruct (unparseable_candidate_raises self _ _ buffer Hbad) as (ex & Hex).
    now apply (check_conflicts_caught self _ _ _ ex).
  - intros date dm wsh weh. split; [apply find_free_slots_returns |].
    intros s e resp b Hw Hl Hin Hb Hnone.
    rewrite (find_free_slots_listed self _ _ _ _ _ _ _ Hw Hl).
    destruct (sweep_unreadable s e dm _ b Hin Hb Hnone) as (ex & Hex).
    now rewrite Hex.
  - intros start_time end_time buffer start_dt end_dt resp Hs He _ Hl Hc.
    now apply (check_conflicts_listed self _ _ _ start_dt end_dt).
Qed.

(** C6 (amended): no duration is validated and no InvalidDuration
    error exists. [check_conflicts] with a negative buffer returns
    normally: it sends the range from [start - buffer] to
    [end + buffer], shrunk on both sides, to the provider and reports
    the timed events of the answer. [find_free_slots] with a
    non-positive minimum duration returns normally: with no timed
    busy interval and a window whose start is not after its end the
    result is the slot spanning the window. *)
Theorem durations_are_not_validated :
  (forall (start_time end_time : string) (buffer : Z)
          (start_dt end_dt : datetime) (resp : list_response),
      buffer < 0 ->
      fromisoformat (replace_Z start_time) = Some start_dt ->
      fromisoformat (replace_Z end_time) = Some end_dt ->
      events_list (service self) (conflicts_request self start_dt end_dt buffer)
        = Returns resp ->
      Forall complete (get_items resp) ->
      wall start_dt < wall (sub_minutes start_dt buffer)
      /\ wall (add_minutes end_dt buffer) < wall end_dt
      /\ check_conflicts self start_time end_time (Some buffer)
         = Returns (nonempty (flat_map conflict_entry (get_items resp)),
                    flat_map conflict_entry (get_items resp)))
  /\ (forall (date : string) (dm wsh weh : Z) (s e : datetime)
             (resp : list_response),
        dm <= 0 ->
        work_window self date wsh weh = Returns (s, e) ->
        events_list (service self) (slots_request self s e) = Returns resp ->
        Forall (fun b => is_timed b = false) (get_items resp) ->
        instant s <= instant e ->
        find_free_slots self date dm wsh weh = Returns [gap_slot (s, e)]).
Proof.
  split.
  - intros start_time end_time buffer start_dt end_dt resp Hneg Hs He Hl Hc.
    unfold sub_minutes, add_minutes. cbn [wall].
    split; [lia |]. split; [lia |].
    now apply (check_conflicts_listed self _ _ _ start_dt end_dt).
  - intros date dm wsh weh s e resp Hdm Hw Hl Hn Hse.
    rewrite (find_free_slots_listed self _ _ _ _ _ _ _ Hw Hl).
    destruct (work_window_aware self _ _ _ _ _ Hw) as (Hs & He).
    rewrite (sweep_no_timed _ _ _ _ Hn Hs He).
    assert (H : (dm * 60 <=? instant e - instant s) = true)
      by (apply Z.leb_le; lia).
    now rewrite H.
Qed.

End ListingClaims.

(** * Scenarios on the reference platform *)

Section Scenarios.

#[local] Existing Instance reference_platform.

Ltac span_order :=
  let a := fresh "a" in
  let b := fresh "b" in
  let H := fresh "H" in
  intros a b H; vm_compute in H; injection H as <- <-; vm_compute; discriminate.

Ltac all_complete :=
  repeat constructor;
  let H := fresh "H" in
  let H' := fresh "H" in
  intros H; first [discriminate H | intros H'; discriminate H'].

Ltac in_zone :=
  eexists _, _; split; [reflexivity |]; split; [reflexivity |];
  split; [reflexivity |]; vm_compute; discriminate.

(** C1, counterexample: on the answer [workshop 15:00-16:00; standup
    10:00-11:00], which is not in start order, the result has the two
    slots 09:00-15:00 and 16:00-18:00, while on the sorted list it has
    the three slots 09:00-10:00, 11:00-15:00 and 16:00-18:00. *)
Lemma find_free_slots_depends_on_listed_order :
  let busy := [workshop_event; standup_event] in
  spec_sorted_busy busy = [standup_event; workshop_event]
  /\ find_free_slots (api_over (fixed_service busy)) "2024-01-15" 30 9 18
     = Returns [ {| slot_start := "2024-01-15T09:00:00+05:30";
                    slot_end := "2024-01-15T15:00:00+05:30";
                    slot_duration_minutes := 360 |};
                 {| slot_start := "2024-01-15T16:00:00+05:30";
                    slot_end := "2024-01-15T18:00:00+05:30";
                    slot_duration_minutes := 120 |} ]
  /\ find_free_slots (api_over (fixed_service (spec_sorted_busy busy)))
       "2024-01-15" 30 9 18
     = Returns [ {| slot_start := "2024-01-15T09:00:00+05:30";
                    slot_end := "2024-01-15T10:00:00+05:30";
                    slot_duration_minutes := 60 |};
                 {| slot_start := "2024-01-15T11:00:00+05:30";
                    slot_end := "2024-01-15T15:00:00+05:30";
                    slot_duration_minutes := 240 |};
                 {| slot_start := "2024-01-15T16:00:00+05:30";
                    slot_end := "2024-01-15T18:00:00+05:30";
                    slot_duration_minutes := 120 |} ]
  /\ find_free_slots (api_over (fixed_service busy)) "2024-01-15" 30 9 18
     <> find_free_slots (api_over (fixed_service (spec_sorted_busy busy)))
          "2024-01-15" 30 9 18.
Proof.
  cbv zeta. repeat split; try reflexivity.
  vm_compute. discriminate.
Qed.

(** C2, counterexample: a candidate start that is no timestamp makes
    [check_conflicts] return [False] with an error entry, a listed
    event whose start cannot be read makes [find_free_slots] return
    the empty list, and a candidate that ends before it starts is
    processed like any other; nothing is raised to the caller. *)
Lemma malformed_input_is_not_raised :
  check_conflicts (api_over (fixed_service [])) "tomorrow" at_15_00 (Some 15)
  = Returns (false,
             [ErrorDict "Unexpected error: Invalid isoformat string: tomorrow"])
  /\ find_free_slots (api_over (fixed_service [unreadable_event]))
       "2024-01-15" 30 9 18
     = Returns []
  /\ instant fourteen < instant fifteen
  /\ check_conflicts (api_over (fixed_service [])) at_15_00 at_14_00 (Some 15)
     = Returns (false, []).
Proof.
  repeat split; reflexivity.
Qed.

(** C3, counterexample: for the candidate 14:00-15:00 with a buffer of
    15 minutes and the busy list [17:00-18:00], which the padded
    candidate 13:45-15:15 does not overlap, [check_conflicts] reports
    the busy interval as a conflict and returns true, where the
    overlap test gives [(false, [])]. *)
Lemma check_conflicts_counts_disjoint_event :
  let self := api_over (fixed_service [late_event]) in
  fromisoformat (replace_Z at_14_00) = Some fourteen
  /\ fromisoformat (replace_Z at_15_00) = Some fifteen
  /\ instant fourteen < instant fifteen
  /\ overlaps (sub_minutes fourteen 15) (add_minutes fifteen 15) late_event
     = false
  /\ spec_has_conflict fourteen fifteen 15 [late_event] = (false, [])
  /\ check_conflicts self at_14_00 at_15_00 (Some 15)
     = Returns (true,
                [Conflict "retro" "2024-01-15T17:00:00+05:30"
                          "2024-01-15T18:00:00+05:30" "retro"]).
Proof.
  cbv zeta. repeat split; reflexivity.
Qed.

(** C5, counterexample: for the candidate 14:00-15:00 with a buffer of
    15 minutes and the busy list [15:10-16:00; 17:00-18:00], of which
    only the first overlaps the padded candidate, [check_conflicts]
    returns both intervals, not the list of the overlapping ones. *)
Lemma check_conflicts_returns_more_than_overlapping :
  let self := api_over (fixed_service [review_event; late_event]) in
  overlaps (sub_minutes fourteen 15) (add_minutes fifteen 15) review_event
  = true
  /\ spec_has_conflict fourteen fifteen 15 [review_event; late_event]
     = (true, [Conflict "review" "2024-01-15T15:10:00+05:30"
                        "2024-01-15T16:00:00+05:30" "review"])
  /\ check_conflicts self at_14_00 at_15_00 (Some 15)
     = Returns (true,
                [Conflict "review" "2024-01-15T15:10:00+05:30"
                          "2024-01-15T16:00:00+05:30" "review";
                 Conflict "retro" "2024-01-15T17:00:00+05:30"
                          "2024-01-15T18:00:00+05:30" "retro"]).
Proof.
  cbv zeta. repeat split; reflexivity.
Qed.

(** C6, counterexample: with the buffer -5 [check_conflicts] queries
    the provider and reports a conflict, and with the minimum
    durations 0 and -30 [find_free_slots] returns the slot of the
    whole window; no error is raised before the computation. *)
Lemma invalid_duration_is_not_rejected :
  check_conflicts (api_over (listing_service [review_event]))
    at_15_00 at_16_30 (Some (-5))
  = Returns (true, [Conflict "review" "2024-01-15T15:10:00+05:30"
                             "2024-01-15T16:00:00+05:30" "review"])
  /\ find_free_slots (api_over (fixed_service [])) "2024-01-15" 0 9 18
     = Returns [gap_slot (nine, eighteen)]
  /\ find_free_slots (api_over (fixed_service [])) "2024-01-15" (-30) 9 18
     = Returns [gap_slot (nine, eighteen)].
Proof.
  repeat split; reflexivity.
Qed.

(** C7, counterexample: for the candidate 14:00-15:00 with a buffer of
    5 minutes and the busy list [15:10-16:00] as the list to examine,
    [check_conflicts] returns true although the padded candidate ends
    at 15:05 and does not overlap it. *)
Lemma check_conflicts_five_minutes_listed_event :
  let self := api_over (fixed_service [review_event]) in
  isoformat (add_minutes fifteen 5) = "2024-01-15T15:05:00+05:30"
  /\ overlaps (sub_minutes fourteen 5) (add_minutes fifteen 5) review_event
     = false
  /\ check_conflicts self at_14_00 at_15_00 (Some 5)
     = Returns (true, [Conflict "review" "2024-01-15T15:10:00+05:30"
                                "2024-01-15T16:00:00+05:30" "review"]).
Proof.
  cbv zeta. repeat split; reflexivity.
Qed.

(** C7 (amended): for the candidate 14:00-15:00 and a calendar holding
    [15:10-16:00], [check_conflicts] asks the provider for the events
    up to 15:15 with a buffer of 15 minutes and up to 15:05 with a
    buffer of 5 minutes; with a provider that lists the events that
    start before [timeMax] and end after [timeMin] it returns true in
    the first case and false, with no conflict, in the second. *)
Theorem check_conflicts_buffer_scenarios :
  let self := api_over (listing_service [review_event]) in
  fromisoformat (replace_Z at_14_00) = Some fourteen
  /\ fromisoformat (replace_Z at_15_00) = Some fifteen
  /\ timeMax (conflicts_request self fourteen fifteen 15)
     = "2024-01-15T15:15:00+05:30"
  /\ check_conflicts self at_14_00 at_15_00 (Some 15)
     = Returns (true, [Conflict "review" "2024-01-15T15:10:00+05:30"
                                "2024-01-15T16:00:00+05:30" "review"])
  /\ timeMax (conflicts_request self fourteen fifteen 5)
     = "2024-01-15T15:05:00+05:30"
  /\ check_conflicts self at_14_00 at_15_00 (Some 5) = Returns (false, []).
Proof.
  cbv zeta. repeat split; reflexivity.
Qed.

(** ** The theorems applied to concrete inputs *)

Lemma find_free_slots_sweeps_in_listed_order_witness :
  let self := api_over (fixed_service [holiday_event; standup_event; workshop_event]) in
  work_window self "2024-01-15" 9 18 = Returns (nine, eighteen)
  /\ find_free_slots self "2024-01-15" 30 9 18
     = try_except
         (sweep nine eighteen 30
            (spec_sorted_busy [holiday_event; standup_event; workshop_event]))
         (fun _ => Returns []).
Proof.
  cbv zeta. split; [reflexivity |].
  assert (Hw : work_window
                 (api_over (fixed_service [holiday_event; standup_event; workshop_event]))
                 "2024-01-15" 9 18
               = Returns (nine, eighteen)) by reflexivity.
  apply (proj2 (proj2
           (find_free_slots_sweeps_in_listed_order
              (api_over (fixed_service [holiday_event; standup_event; workshop_event]))
              "2024-01-15" 30 9 18 nine eighteen
              {| items := Some [holiday_event; standup_event; workshop_event] |}
              Hw eq_refl))
         19800).
  - lia.
  - repeat constructor; in_zone.
  - repeat constructor; vm_compute; discriminate.
Defined.

Lemma malformed_input_is_caught_witness :
  let self := api_over (fixed_service [unreadable_event]) in
  fromisoformat (replace_Z "tomorrow") = None
  /\ (exists msg,
         check_conflicts self "tomorrow" at_15_00 (Some 15)
         = Returns (false, [ErrorDict msg]))
  /\ event_span unreadable_event = None
  /\ find_free_slots self "2024-01-15" 30 9 18 = Returns []
  /\ instant fourteen <= instant fifteen
  /\ check_conflicts self at_15_00 at_14_00 (Some 15)
     = Returns (nonempty (flat_map conflict_entry [unreadable_event]),
                flat_map conflict_entry [unreadable_event]).
Proof.
  cbv zeta. split; [reflexivity |].
  split; [| split; [reflexivity |]; split; [| split; [vm_compute; discriminate |]]].
  - apply (proj1 (malformed_input_is_caught
                    (api_over (fixed_service [unreadable_event])))).
    left. reflexivity.
  - apply (proj2 (proj1 (proj2 (malformed_input_is_caught
                                  (api_over (fixed_service [unreadable_event]))))
                    "2024-01-15" 30 9 18)
             nine eighteen {| items := Some [unreadable_event] |}
             unreadable_event);
      try reflexivity.
    left. reflexivity.
  - apply (proj2 (proj2 (malformed_input_is_caught
                           (api_over (fixed_service [unreadable_event]))))
             at_15_00 at_14_00 15 fifteen fourteen
             {| items := Some [unreadable_event] |});
      try reflexivity.
    + vm_compute. discriminate.
    + all_complete.
Defined.

Lemma check_conflicts_reports_every_timed_event_witness :
  let calendar := [holiday_event; late_event; review_event] in
  let self := api_over (listing_service calendar) in
  events_list (service self) (conflicts_request self fourteen fifteen 15)
  = Returns {| items := Some [holiday_event; review_event] |}
  /\ exists has conflicts,
      check_conflicts self at_14_00 at_15_00 (Some 15) = Returns (has, conflicts)
      /\ (has, conflicts)
         = spec_has_conflict fourteen fifteen 15 [holiday_event; review_event].
Proof.
  cbv zeta.
  assert (Hs : fromisoformat (replace_Z at_14_00) = Some fourteen) by reflexivity.
  assert (He : fromisoformat (replace_Z at_15_00) = Some fifteen) by reflexivity.
  assert (Hl : events_list
                 (service (api_over (listing_service [holiday_event; late_event; review_event])))
                 (conflicts_request
                    (api_over (listing_service [holiday_event; late_event; review_event]))
                    fourteen fifteen 15)
               = Returns {| items := Some [holiday_event; review_event] |})
    by reflexivity.
  split; [exact Hl |].
  destruct (check_conflicts_reports_every_timed_event
              (api_over (listing_service [holiday_event; late_event; review_event]))
              at_14_00 at_15_00 15 fourteen fifteen
              {| items := Some [holiday_event; review_event] |}
              Hs He Hl)
    as (_ & _ & has & conflicts & Hr & _ & Hspec & _).
  - all_complete.
  - exists has, conflicts. split; [exact Hr |]. apply Hspec.
    clear. repeat constructor.
    intros H. discriminate H.
Defined.

Lemma find_free_slots_slots_long_disjoint_ordered_witness :
  (0 < 30
   /\ exists gaps,
       find_free_slots (api_over (fixed_service [standup_event]))
         "2024-01-15" 30 9 18
       = Returns (map gap_slot gaps)
       /\ Forall (fun g => 30 * 60 <= gap_seconds g) gaps
       /\ Forall (fun slot => 30 <= slot_duration_minutes slot)
                 (map gap_slot gaps)
       /\ StronglySorted precedes gaps)
  /\ find_free_slots (api_over (fixed_service [holiday_event]))
       "2024-01-15" 30 9 18
     = Returns [gap_slot (nine, eighteen)].
Proof.
  split; [split; [lia |] |].
  - apply (proj1 (find_free_slots_slots_long_disjoint_ordered
                    (api_over (fixed_service [standup_event])))); [lia |].
    intros req resp H. injection H as <-.
    repeat constructor. span_order.
  - apply (proj1 (proj2 (find_free_slots_slots_long_disjoint_ordered
                           (api_over (fixed_service [holiday_event]))))
             "2024-01-15" 30 9 18 nine eighteen
             {| items := Some [holiday_event] |});
      try reflexivity.
    + repeat constructor.
    + vm_compute. discriminate.
Defined.

Lemma check_conflicts_returns_all_listed_witness :
  let calendar := [review_event; workshop_event] in
  let self := api_over (listing_service calendar) in
  events_list (service self) (conflicts_request self fourteen fifteen 15)
  = Returns {| items := Some [workshop_event; review_event] |}
  /\ exists has conflicts,
      check_conflicts self at_14_00 at_15_00 (Some 15) = Returns (has, conflicts)
      /\ conflicts = flat_map conflict_entry [workshop_event; review_event]
      /\ (has = true <-> conflicts <> []).
Proof.
  cbv zeta.
  assert (Hs : fromisoformat (replace_Z at_14_00) = Some fourteen) by reflexivity.
  assert (He : fromisoformat (replace_Z at_15_00) = Some fifteen) by reflexivity.
  assert (Hl : events_list
                 (service (api_over (listing_service [review_event; workshop_event])))
                 (conflicts_request
                    (api_over (listing_service [review_event; workshop_event]))
                    fourteen fifteen 15)
               = Returns {| items := Some [workshop_event; review_event] |})
    by reflexivity.
  split; [exact Hl |].
  destruct (check_conflicts_returns_all_listed
              (api_over (listing_service [review_event; workshop_event]))
              at_14_00 at_15_00 15 fourteen fifteen
              {| items := Some [workshop_event; review_event] |}
              Hs He Hl)
    as (has & conflicts & Hr & Hall & Hiff & _).
  - all_complete.
  - exists has, conflicts. auto.
Defined.

Lemma durations_are_not_validated_witness :
  let self := api_over (listing_service [review_event]) in
  (-5 < 0
   /\ events_list (service self)
        (conflicts_request self fifteen half_past_sixteen (-5))
      = Returns {| items := Some [review_event] |}
   /\ check_conflicts self at_15_00 at_16_30 (Some (-5))
      = Returns (nonempty (flat_map conflict_entry [review_event]),
                 flat_map conflict_entry [review_event]))
  /\ (0 <= 0
      /\ find_free_slots (api_over (fixed_service [])) "2024-01-15" 0 9 18
         = Returns [gap_slot (nine, eighteen)]).
Proof.
  cbv zeta. split; (split; [lia |]).
  - split; [reflexivity |].
    apply (proj1 (durations_are_not_validated
                    (api_over (listing_service [review_event])))
             at_15_00 at_16_30 (-5) fifteen half_past_sixteen
             {| items := Some [review_event] |});
      try reflexivity; try lia.
    all_complete.
  - apply (proj2 (durations_are_not_validated
                    (api_over (fixed_service [])))
             "2024-01-15" 0 9 18 nine eighteen {| items := Some [] |});
      try reflexivity; try lia.
    + constructor.
    + vm_compute. discriminate.
Defined.

Lemma find_free_slots_spanning_event_and_cursor_witness :
  slots_loop 15 [spanning_event] nine [] = Returns (nineteen, [])
  /\ instant nine <= instant nineteen
  /\ (nineteen = nine \/ busy_end [spanning_event] nineteen).
Proof.
  assert (Hrun : slots_loop 15 [spanning_event] nine [] = Returns (nineteen, []))
    by reflexivity.
  split; [exact Hrun |].
  destruct (proj2 (proj2 (@find_free_slots_spanning_event_and_cursor
                            reference_platform))
              15 [spanning_event] nine nineteen [] [] Hrun)
    as (Hle & Hat & _).
  split; assumption.
Defined.

Lemma check_conflicts_error_reads_as_no_conflict_witness :
  let self := api_over (fixed_service [review_event]) in
  check_conflicts_try self "tomorrow at noon" "2024-01-16T13:00:00" (Some 15)
  = Raises (ValueError "Invalid isoformat string: tomorrow at noon")
  /\ (exists msg,
         check_conflicts self "tomorrow at noon" "2024-01-16T13:00:00" (Some 15)
         = Returns (false, [ErrorDict msg]))
  /\ schedule_event self None vague_lunch
     = Returns (CreateEvent (create_event self vague_lunch)).
Proof.
  cbv zeta.
  assert (Hraised :
            check_conflicts_try (api_over (fixed_service [review_event]))
              "tomorrow at noon" "2024-01-16T13:00:00" (Some 15)
            = Raises (ValueError "Invalid isoformat string: tomorrow at noon"))
    by reflexivity.
  split; [exact Hraised |].
  destruct (check_conflicts_error_reads_as_no_conflict
              (api_over (fixed_service [review_event]))
              "tomorrow at noon" "2024-01-16T13:00:00" (Some 15)
              (ValueError "Invalid isoformat string: tomorrow at noon")
              Hraised)
    as (Hcaught & Hcaller).
  split; [exact Hcaught |].
  apply Hcaller; reflexivity.
Defined.

Lemma find_free_slots_slot_past_window_end_witness :
  slots_loop 30 [dinner_event] nine []
  = Returns (twenty, [gap_slot (nine, nineteen)])
  /\ exists gaps,
      [gap_slot (nine, nineteen)] = [] ++ map gap_slot gaps
      /\ Forall (fun g => busy_start [dinner_event] (snd g)
                          /\ slot_end (gap_slot g) = isoformat (snd g))
                gaps.
Proof.
  split; [reflexivity |].
  apply (proj2 (@find_free_slots_slot_past_window_end reference_platform)
           30 [dinner_event] nine twenty [] [gap_slot (nine, nineteen)]).
  reflexivity.
Defined.

End Scenarios.

(** * Further properties of the free-slot search *)

Section FreeSlotSoundness.

Context {platform : Platform}.
Variable self : GoogleCalendarAPI.

Lemma sweep_gaps_timed_only (dm : Z) (events : list event) :
  forall c, sweep_gaps dm events c = sweep_gaps dm (filter is_timed events) c.
Proof.
  induction events as [| e rest IH]; intros c; [reflexivity |].
  cbn [filter]. destruct (is_timed e) eqn:Ht.
  - simpl. destruct (event_span e) as [[a b] |]; [| apply IH].
    now rewrite IH.
  - simpl. rewrite (all_day_no_span _ Ht). apply IH.
Qed.

(** After the sweep the cursor is at or after the end of every busy
    interval that was read. *)
Lemma sweep_gaps_ends_behind (dm : Z) (events : list event) :
  forall c e a b,
    In e events -> event_span e = Some (a, b) ->
    instant b <= instant (fst (sweep_gaps dm events c)).
Proof.
  induction events as [| x rest IH]; intros c e a b Hin Hspan; [destruct Hin |].
  simpl. destruct (event_span x) as [[ax bx] |] eqn:Hx.
  - set (next := if instant c <? instant bx then bx else c).
    pose proof (sweep_gaps_cursor dm rest next) as (Hnext & _).
    pose proof (IH next e a b) as IHe.
    destruct (sweep_gaps dm rest next) as [last found]. simpl in *.
    destruct Hin as [<- | Hin]; [| now apply IHe].
    rewrite Hspan in Hx. injection Hx as <- <-.
    unfold next in Hnext.
    destruct (instant c <? instant b) eqn:Hcb; [lia |].
    apply Z.ltb_ge in Hcb. lia.
  - destruct Hin as [<- | Hin]; [congruence |]. now apply (IH c e a b).
Qed.

Lemma sweep_gaps_clear (dm : Z) (events : list event) :
  StronglySorted by_start events ->
  forall c, Forall (clear_of events) (snd (sweep_gaps dm events c)).
Proof.
  induction 1 as [| x rest Hs IH Hx]; intros c; simpl; [constructor |].
  destruct (event_span x) as [[ax bx] |] eqn:Hspan.
  - set (next := if instant c <? instant bx then bx else c).
    specialize (IH next).
    pose proof (sweep_gaps_found dm rest next) as Hfound.
    destruct (sweep_gaps dm rest next) as [last found]. simpl in *.
    assert (Hbn : instant bx <= instant next).
    { unfold next. destruct (instant c <? instant bx) eqn:Hcb; [lia |].
      apply Z.ltb_ge in Hcb. lia. }
    assert (Hrest : Forall (clear_of (x :: rest)) found).
    { rewrite Forall_forall in *. intros g Hg e a b [<- | Hin] He.
      - rewrite Hspan in He. injection He as <- <-.
        destruct (Hfound g Hg) as (_ & Hc & _). left. lia.
      - now apply (IH g Hg e a b). }
    destruct (dm * 60 <=? instant ax - instant c); [| exact Hrest].
    constructor; [| exact Hrest].
    intros e a b [<- | Hin] He; simpl.
    + rewrite Hspan in He. injection He as <- <-. right. lia.
    + right. rewrite Forall_forall in Hx. specialize (Hx e Hin).
      unfold by_start, start_key in Hx. now rewrite Hspan, He in Hx.
  - eapply Forall_impl; [| exact (IH c)].
    intros g Hg e a b [<- | Hin] He; [congruence | now apply (Hg e a b)].
Qed.

Lemma window_gaps_clear (s e : datetime) (dm : Z) (events : list event) :
  StronglySorted by_start events ->
  Forall (fun g => instant s <= instant (fst g) /\ clear_of events g)
         (window_gaps s e dm events).
Proof.
  intros Hs. unfold window_gaps.
  pose proof (sweep_gaps_clear dm events Hs s) as Hclear.
  pose proof (sweep_gaps_found dm events s) as Hfound.
  pose proof (sweep_gaps_cursor dm events s) as (Hcur & _).
  pose proof (sweep_gaps_ends_behind dm events s) as Hends.
  destruct (sweep_gaps dm events s) as [last found]. simpl in *.
  assert (Hl : Forall (fun g => instant s <= instant (fst g)
                                /\ clear_of events g) found).
  { rewrite Forall_forall in *. intros g Hg. split; [| now apply Hclear].
    now destruct (Hfound g Hg) as (_ & Hc & _). }
  destruct (dm * 60 <=? instant e - instant last); [| exact Hl].
  apply Forall_app. split; [exact Hl |]. constructor; [| constructor].
  split; [exact Hcur |]. intros x a b Hin Hx. left. now apply (Hends x a b).
Qed.

(** X1: the slots are free. When the provider lists the timed events by
    start time, every slot that [find_free_slots] returns starts at or
    after the start of the working hours and meets no listed busy
    interval: each busy interval ends by the slot's start or starts at
    or after the slot's end. *)
Theorem find_free_slots_slots_meet_no_busy_interval
    (date : string) (dm wsh weh : Z) (s e : datetime) (resp : list_response) :
  work_window self date wsh weh = Returns (s, e) ->
  events_list (service self) (slots_request self s e) = Returns resp ->
  StronglySorted by_start (filter is_timed (get_items resp)) ->
  exists gaps,
    find_free_slots self date dm wsh weh = Returns (map gap_slot gaps)
    /\ Forall (fun g => instant s <= instant (fst g)
                        /\ clear_of (get_items resp) g) gaps.
Proof.
  intros Hw Hl Hsorted.
  rewrite (find_free_slots_listed self _ _ _ _ _ _ _ Hw Hl).
  destruct (sweep s e dm (get_items resp)) as [out | ex] eqn:Hsweep;
    [| exists []; split; [reflexivity | constructor]].
  exists (window_gaps s e dm (get_items resp)). split.
  - simpl. now rewrite (sweep_refines _ _ _ _ _ Hsweep).
  - unfold window_gaps. rewrite sweep_gaps_timed_only.
    change (Forall (fun g => instant s <= instant (fst g)
                             /\ clear_of (get_items resp) g)
                   (window_gaps s e dm (filter is_timed (get_items resp)))).
    eapply Forall_impl;
      [| exact (window_gaps_clear s e dm _ Hsorted)].
    intros g (Hg & Hclear). split; [exact Hg |].
    intros x a b Hin Hx. apply (Hclear x a b); [| exact Hx].
    apply filter_In. split; [exact Hin | now apply (span_timed x a b)].
Qed.

(** On a listing whose timed events can all be read, nothing is raised. *)
Lemma slots_loop_well_formed (dm : Z) (events : list event) :
  Forall well_formed events ->
  forall c acc,
    aware c = true ->
    slots_loop dm events c acc
    = Returns (fst (sweep_gaps dm events c),
               acc ++ map gap_slot (snd (sweep_gaps dm events c))).
Proof.
  induction 1 as [| x rest Hx _ IH]; intros c acc Hc; simpl sweep_gaps.
  - simpl. now rewrite app_nil_r.
  - destruct (is_timed x) eqn:Ht.
    + destruct (Hx Ht) as (a & b & Hspan & Ha & Hb & _).
      rewrite (slots_loop_timed_step dm x rest c a b acc Ht Hspan)
        by congruence.
      rewrite Hspan. rewrite IH by (now destruct (instant c <? instant b)).
      destruct (sweep_gaps dm rest (if instant c <? instant b then b else c))
        as [last found]. simpl.
      destruct (dm * 60 <=? instant a - instant c); simpl;
        [now rewrite <- app_assoc | reflexivity].
    + rewrite (slots_loop_all_day _ _ _ _ _ Ht), (all_day_no_span _ Ht).
      now apply IH.
Qed.

Lemma sweep_well_formed (s e : datetime) (dm : Z) (events : list event) :
  Forall well_formed events -> aware s = true -> aware e = true ->
  sweep s e dm events = Returns (map gap_slot (window_gaps s e dm events)).
Proof.
  intros Hwf Hs He. unfold sweep, window_gaps.
  rewrite (slots_loop_well_formed dm events Hwf s [] Hs). simpl.
  assert (Hlast : aware (fst (sweep_gaps dm events s)) = true).
  { pose proof (slots_loop_well_formed dm events Hwf s [] Hs) as Hrun.
    apply slots_loop_aware in Hrun. congruence. }
  destruct (sweep_gaps dm events s) as [last found]. simpl in *.
  unfold dt_sub. rewrite He, Hlast. simpl.
  destruct (dm * 60 <=? instant e - instant last);
    [now rewrite map_app | reflexivity].
Qed.

(** Free time from [x] to [y] is found: by a gap of the loop, or the
    cursor ends at or before [x]. *)
Lemma sweep_gaps_complete (dm x y : Z) (events : list event) :
  dm * 60 <= y - x ->
  (forall e a b, In e events -> event_span e = Some (a, b) ->
                 instant b <= x \/ y <= instant a) ->
  forall c,
    instant c <= x ->
    (exists g, In g (snd (sweep_gaps dm events c))
               /\ instant (fst g) <= x /\ y <= instant (snd g))
    \/ instant (fst (sweep_gaps dm events c)) <= x.
Proof.
  intros Hlen. induction events as [| e rest IH]; intros Hfree c Hc; simpl;
    [now right |].
  assert (Hrest : forall e' a b, In e' rest -> event_span e' = Some (a, b) ->
                                 instant b <= x \/ y <= instant a)
    by (intros e' a b Hin; apply Hfree; now right).
  destruct (event_span e) as [[a b] |] eqn:Hspan; [| now apply IH].
  set (next := if instant c <? instant b then b else c).
  destruct (Hfree e a b (or_introl eq_refl) Hspan) as [Hb | Ha].
  - assert (Hn : instant next <= x)
      by (unfold next; now destruct (instant c <? instant b)).
    specialize (IH Hrest next Hn).
    destruct (sweep_gaps dm rest next) as [last found]. simpl in *.
    destruct IH as [(g & Hg & Hgx & Hgy) | Hlast]; [| now right].
    left. exists g. split; [| now split].
    destruct (dm * 60 <=? instant a - instant c); [now right | exact Hg].
  - destruct (sweep_gaps dm rest next) as [last found]. simpl.
    assert (Hgap : (dm * 60 <=? instant a - instant c) = true)
      by (apply Z.leb_le; lia).
    rewrite Hgap. left. exists (c, a). simpl. auto.
Qed.

(** X2: no free time is missed. When every listed timed event can be
    read, any stretch of time inside the working hours that is at least
    the minimum duration long and meets no listed busy interval lies
    inside one of the slots that [find_free_slots] returns. *)
Theorem find_free_slots_finds_every_free_stretch
    (date : string) (dm wsh weh : Z) (s e : datetime) (resp : list_response)
    (x y : Z) :
  work_window self date wsh weh = Returns (s, e) ->
  events_list (service self) (slots_request self s e) = Returns resp ->
  Forall well_formed (get_items resp) ->
  instant s <= x -> y <= instant e -> dm * 60 <= y - x ->
  (forall b a' b', In b (get_items resp) -> event_span b = Some (a', b') ->
                   instant b' <= x \/ y <= instant a') ->
  exists gaps g,
    find_free_slots self date dm wsh weh = Returns (map gap_slot gaps)
    /\ In g gaps /\ instant (fst g) <= x /\ y <= instant (snd g).
Proof.
  intros Hw Hl Hwf Hx Hy Hlen Hfree.
  destruct (work_window_aware self _ _ _ _ _ Hw) as (Hs & He).
  rewrite (find_free_slots_listed self _ _ _ _ _ _ _ Hw Hl).
  rewrite (sweep_well_formed s e dm _ Hwf Hs He). simpl.
  exists (window_gaps s e dm (get_items resp)).
  unfold window_gaps.
  destruct (sweep_gaps_complete dm x y (get_items resp) Hlen Hfree s Hx)
    as [(g & Hg & Hgx & Hgy) | Hlast].
  - exists g. split; [reflexivity |].
    destruct (sweep_gaps dm (get_items resp) s) as [last found]. simpl in *.
    split; [| now split].
    destruct (dm * 60 <=? instant e - instant last);
      [apply in_or_app; now left | exact Hg].
  - destruct (sweep_gaps dm (get_items resp) s) as [last found]. simpl in *.
    exists (last, e). split; [reflexivity |].
    assert (Hgap : (dm * 60 <=? instant e - instant last) = true)
      by (apply Z.leb_le; lia).
    rewrite Hgap. simpl. split; [| now split].
    apply in_or_app. right. now left.
Qed.

(** X3: a date that does not read as YYYY-MM-DD, or a working hour
    outside 0..23, makes [find_free_slots] return the empty list,
    whatever the calendar holds. *)
Theorem find_free_slots_bad_day_or_hour
    (date : string) (dm wsh weh : Z) :
  strptime_ymd date = None
  \/ ~ (0 <= wsh <= 23) \/ ~ (0 <= weh <= 23) ->
  find_free_slots self date dm wsh weh = Returns [].
Proof.
  intros Hbad.
  assert (Hw : exists ex, work_window self date wsh weh = Raises ex).
  { unfold work_window, datetime_strptime.
    destruct (strptime_ymd date) as [d |]; simpl; [| eauto].
    destruct Hbad as [Hbad | Hbad]; [discriminate |].
    unfold replace_hour at 1.
    destruct ((0 <=? wsh) && (wsh <=? 23)) eqn:Hs; simpl; [| eauto].
    apply andb_true_iff in Hs. destruct Hs as (Hs1 & Hs2).
    apply Z.leb_le in Hs1, Hs2.
    destruct Hbad as [Hbad | Hbad]; [now destruct Hbad |].
    destruct (localize (timezone self) _) as [st | ex]; simpl; [| eauto].
    unfold replace_hour.
    destruct ((0 <=? weh) && (weh <=? 23)) eqn:He; simpl; [| eauto].
    apply andb_true_iff in He. destruct He as (He1 & He2).
    apply Z.leb_le in He1, He2. destruct Hbad. lia. }
  destruct Hw as (ex & Hw).
  unfold find_free_slots, find_free_slots_try. now rewrite Hw.
Qed.

End FreeSlotSoundness.

(** * Creating and scheduling events *)

Section SchedulingProperties.

Context {platform : Platform}.
Variable self : GoogleCalendarAPI.

Lemma create_event_try_unfold (d : event_data) :
  create_event_try self d
  = (m <- env_int "DEFAULT_REMINDER_MINUTES" 15 ;;
     created <- events_insert (service self) (calendar_id self)
                  (insert_body self d m) ;;
     Returns (true, created)).
Proof.
  unfold create_event_try, insert_body.
  destruct (env_int "DEFAULT_REMINDER_MINUTES" 15) as [m | ex]; reflexivity.
Qed.

(** X4: [create_event] never raises. It returns [True] with the new id
    exactly when the reminder setting reads as an integer and the
    provider accepts the body, which carries the title and the two
    timestamps as given, unvalidated, and a location and description
    only when they are non-empty; every failure is returned as [False]
    with a message. *)
Theorem create_event_outcome (d : event_data) :
  (forall id,
      create_event self d = Returns (true, id)
      <-> exists m,
          env_int "DEFAULT_REMINDER_MINUTES" 15 = Returns m
          /\ events_insert (service self) (calendar_id self)
               (insert_body self d m) = Returns id)
  /\ (exists ok r,
         create_event self d = Returns (ok, r)
         /\ (ok = false -> exists msg, r = Some msg))
  /\ body_location (insert_body self d 15)
     = match ed_location d with
       | Some EmptyString => None
       | other => other
       end.
Proof.
  unfold create_event. rewrite create_event_try_unfold.
  split; [| split;
            [| unfold insert_body, truthy; simpl;
               now destruct (ed_location d) as [[| c l] |]]].
  - intros id. split.
    + destruct (env_int "DEFAULT_REMINDER_MINUTES" 15) as [m | ex]; simpl.
      * destruct (events_insert (service self) (calendar_id self)
                    (insert_body self d m)) as [created | ex] eqn:Hi; simpl.
        -- intros [= <-]. exists m. split; [reflexivity | exact Hi].
        -- destruct ex; discriminate.
      * destruct ex; discriminate.
    + intros (m & Hm & Hi). rewrite Hm. simpl. rewrite Hi. reflexivity.
  - destruct (env_int "DEFAULT_REMINDER_MINUTES" 15) as [m | ex]; simpl.
    + destruct (events_insert (service self) (calendar_id self)
                  (insert_body self d m)) as [created | ex]; simpl.
      * eexists _, _. split; [reflexivity | discriminate].
      * destruct ex; eexists _, _; (split; [reflexivity | eauto]).
    + destruct ex; eexists _, _; (split; [reflexivity | eauto]).
Qed.

Lemma conflicts_loop_entries (events : list event) :
  forall acc r,
    conflicts_loop events acc = Returns r ->
    forallb is_conflict acc = true -> forallb is_conflict r = true.
Proof.
  induction events as [| e rest IH]; intros acc r H Hacc; simpl in H.
  - now injection H as <-.
  - destruct (dateTime (ev_start e)) as [s |]; [| now apply (IH acc)].
    bind_inv H. apply (IH _ _ H).
    rewrite forallb_app, Hacc. reflexivity.
Qed.

(** When [check_conflicts] says true, its list holds conflicts only, and
    at least one. *)
Lemma check_conflicts_true (start_time end_time : string) (buffer : option Z)
    (conflicts : list conflict_dict) :
  check_conflicts self start_time end_time buffer = Returns (true, conflicts) ->
  forallb is_conflict conflicts = true /\ conflicts <> [].
Proof.
  unfold check_conflicts.
  destruct (check_conflicts_try self start_time end_time buffer)
    as [r | ex] eqn:Htry; simpl; [| destruct ex; discriminate].
  intros [= ->]. unfold check_conflicts_try in Htry.
  bind_inv Htry. bind_inv Htry. bind_inv Htry. bind_inv Htry. bind_inv Htry.
  injection Htry as Hlen <-. split.
  - now apply (conflicts_loop_entries _ _ _ Hv3).
  - rewrite len_positive in Hlen. now apply nonempty_true.
Qed.

Lemma shown_all (conflicts : list conflict_dict) :
  forallb is_conflict conflicts = true -> shown_conflicts conflicts = conflicts.
Proof.
  unfold shown_conflicts. induction conflicts as [| c rest IH]; [reflexivity |].
  simpl. destruct c; simpl; [| discriminate].
  intros H. now rewrite IH.
Qed.


End SchedulingProperties.

(** * Upcoming events and updates *)

Section UpcomingProperties.

Context {platform : Platform}.
Variable self : GoogleCalendarAPI.
Variable editing : editing_service.

Lemma upcoming_loop_listed (events : list event_resource) :
  Forall (fun e => complete (res_event e)) events ->
  forall acc, upcoming_loop events acc
              = Returns (acc ++ flat_map upcoming_entry events).
Proof.
  induction 1 as [| e rest He _ IH]; intros acc; simpl.
  - now rewrite app_nil_r.
  - unfold complete, is_timed in He. unfold upcoming_entry, getitem_dateTime.
    destruct (dateTime (ev_start (res_event e))) as [s |]; [| apply IH].
    destruct (dateTime (ev_end (res_event e))) as [t |]; [| now destruct He].
    simpl. rewrite IH, <- app_assoc. reflexivity.
Qed.

Lemma upcoming_loop_incomplete (events : list event_resource) :
  ~ Forall (fun e => complete (res_event e)) events ->
  forall acc, upcoming_loop events acc = Raises (KeyError "dateTime").
Proof.
  induction events as [| e rest IH]; intros Hn acc; simpl.
  - destruct Hn. constructor.
  - unfold getitem_dateTime.
    destruct (dateTime (ev_start (res_event e))) as [s |] eqn:Hs.
    + destruct (dateTime (ev_end (res_event e))) as [t |] eqn:Ht; simpl;
        [| reflexivity].
      apply IH. intros Hrest. apply Hn. constructor; [| exact Hrest].
      intros _. congruence.
    + apply IH. intros Hrest. apply Hn. constructor; [| exact Hrest].
      unfold complete, is_timed. rewrite Hs. discriminate.
Qed.



End UpcomingProperties.

(** * Timestamps between the parts *)

Section TimestampProperties.

Context {platform : Platform}.

Lemma contains_Z_cons (c : ascii) (s : string) :
  str_contains "Z" (String c s) = Ascii.eqb c "Z" || str_contains "Z" s.
Proof.
  change (str_contains "Z" (String c s))
    with (if String.prefix "Z" (String c s) then true else str_contains "Z" s).
  change (String.prefix "Z" (String c s))
    with (if ascii_dec "Z" c then String.prefix EmptyString s else false).
  destruct (ascii_dec "Z" c) as [<- | Hne].
  - assert (H : String.prefix EmptyString s = true) by now destruct s.
    rewrite H. reflexivity.
  - destruct (Ascii.eqb_spec c "Z") as [-> | _]; [now destruct Hne | reflexivity].
Qed.

Lemma contains_Z_app (s t : string) :
  str_contains "Z" (String.append s t)
  = str_contains "Z" s || str_contains "Z" t.
Proof.
  induction s as [| c s IH].
  - simpl. now destruct t.
  - change (String.append (String c s) t) with (String c (String.append s t)).
    rewrite !contains_Z_cons, IH. now rewrite orb_assoc.
Qed.

(** X8: [replace('Z', '+00:00')], through which [check_conflicts] and
    [find_free_slots] read every timestamp, leaves a string without a
    'Z' unchanged, and its result holds no 'Z', so that applying it
    twice is applying it once; a timestamp without 'Z' that
    [fromisoformat] accepts on its own, as the validation in
    [extract_event_info] requires, is therefore read by
    [check_conflicts] as the same value. *)
Theorem replace_Z_properties (s : string) :
  str_contains "Z" (replace_Z s) = false
  /\ replace_Z (replace_Z s) = replace_Z s
  /\ (str_contains "Z" s = false ->
      replace_Z s = s
      /\ forall d, fromisoformat s = Some d ->
                   datetime_fromisoformat (replace_Z s) = Returns d).
Proof.
  assert (Hid : forall t, str_contains "Z" t = false -> replace_Z t = t).
  { induction t as [| c t IH]; [reflexivity |].
    rewrite contains_Z_cons. intros H. apply orb_false_iff in H.
    destruct H as (Hc & Ht). cbn [replace_Z]. rewrite Hc. now rewrite IH. }
  assert (Hno : str_contains "Z" (replace_Z s) = false).
  { induction s as [| c s IH]; [reflexivity |].
    cbn [replace_Z]. destruct (Ascii.eqb c "Z") eqn:Hc.
    - rewrite contains_Z_app, IH. reflexivity.
    - rewrite contains_Z_cons, Hc, IH. reflexivity. }
  split; [exact Hno |]. split; [now apply Hid |].
  intros Hs. split; [now apply Hid |].
  intros d Hd. rewrite (Hid s Hs). unfold datetime_fromisoformat.
  now rewrite Hd.
Qed.

End TimestampProperties.

(** * Booking a free slot *)

Section BookingProperties.

Context {platform : Platform}.
Variable strftime_seconds : datetime -> string.

Lemma instant_add_minutes (d : datetime) (m : Z) :
  instant (add_minutes d m) = instant d + 60 * m.
Proof.
  unfold instant, add_minutes. simpl. destruct (utcoffset d); lia.
Qed.


End BookingProperties.

(** * Validation of the language model's answers *)

Section GrokProperties.

Context {platform : Platform}.
Variable self : GrokNLP.
Variable json_loads : string -> string + json.
Variable extraction_prompt : string -> string.
Variable alternatives_prompt : string -> list conflict_dict -> string.

Lemma py_in_iterable (key : string) (value : json) :
  iterable value = true -> py_in key value = Returns (in_value value key).
Proof. destruct value; simpl; intros H; (discriminate || reflexivity). Qed.

Lemma py_in_not_iterable (key : string) (value : json) :
  iterable value = false -> exists ex, py_in key value = Raises ex.
Proof. destruct value; simpl; intros H; (discriminate || eauto). Qed.

Lemma missing_in_iterable (fields : list string) (value : json) :
  iterable value = true ->
  missing_in fields value
  = Returns (filter (fun f => negb (in_value value f)) fields).
Proof.
  intros Hi. induction fields as [| f rest IH]; [reflexivity |].
  simpl. rewrite (py_in_iterable f value Hi). simpl. rewrite IH. simpl.
  now destruct (in_value value f).
Qed.

Lemma all_in_iterable (keys : list string) (value : json) :
  iterable value = true ->
  all_in keys value = Returns (forallb (in_value value) keys).
Proof.
  intros Hi. induction keys as [| k rest IH]; [reflexivity |].
  simpl. rewrite (py_in_iterable k value Hi). simpl.
  destruct (in_value value k); [exact IH | reflexivity].
Qed.

Lemma none_missing (p : string -> bool) (fields : list string) :
  nonempty (filter (fun f => negb (p f)) fields) = negb (forallb p fields).
Proof.
  induction fields as [| f rest IH]; [reflexivity |].
  simpl. destruct (p f); simpl; [exact IH | reflexivity].
Qed.

(** What the two [fromisoformat] calls do on a dict that has both keys:
    they pass, or raise [ValueError] for a string that does not parse,
    or raise another error for a value that is no string. *)
Lemma validate_times_dict (members : list (string * json)) :
  has_key members "start_time" = true ->
  has_key members "end_time" = true ->
  (reads_as_time (dict_get "start_time" members)
   && reads_as_time (dict_get "end_time" members) = true
   /\ validate_times (JObject members) = Returns tt)
  \/ (reads_as_time (dict_get "start_time" members)
      && reads_as_time (dict_get "end_time" members) = false
      /\ exists ex, validate_times (JObject members) = Raises ex).
Proof.
  unfold has_key, validate_times, reads_as_time, py_getitem,
    json_fromisoformat, datetime_fromisoformat.
  destruct (dict_get "start_time" members) as [vs |]; [intros _ | discriminate].
  destruct (dict_get "end_time" members) as [ve |]; [intros _ | discriminate].
  cbn [of_option bind].
  destruct vs as [| | | s | |]; cbn [bind]; eauto.
  destruct (fromisoformat s) as [ds |]; cbn [of_option bind]; eauto.
  destruct ve as [| | | e | |]; cbn [bind]; eauto.
  destruct (fromisoformat e) as [de |]; cbn [of_option bind]; eauto.
Qed.

Lemma validate_times_not_dict (value : json) :
  (forall members, value <> JObject members) ->
  exists ex, validate_times value = Raises ex
             /\ match ex with ValueError _ => False | _ => True end.
Proof.
  intros Hn. unfold validate_times, py_getitem.
  destruct value as [| b | n | s | l | members]; simpl;
    try (eexists; split; [reflexivity | exact I]).
  now destruct (Hn members).
Qed.

Lemma extract_event_info_try_unfold (user_input : string) :
  extract_event_info_try self json_loads extraction_prompt user_input
  = let response := make_api_call self (extraction_prompt user_input) in
    if no_response response
    then Returns (false, error_dict "Failed to get response from Grok API")
    else match json_loads (response_text response) with
         | inl message =>
             Returns (false,
                      error_dict (String.append "Invalid JSON response from AI: "
                                    message))
         | inr event_data => examine event_data
         end.
Proof. reflexivity. Qed.

Lemma has_required_times (members : list (string * json)) :
  forallb (has_key members) required_fields = true ->
  has_key members "start_time" = true /\ has_key members "end_time" = true.
Proof.
  unfold required_fields. cbn [forallb]. intros H.
  repeat (apply andb_true_iff in H; destruct H as (? & H)). auto.
Qed.

(** The examination accepts exactly the answers that are [extraction_ok],
    and hands them on unchanged; what it rejects without raising is an
    error dict or the answer itself, which then holds "error". *)
Lemma examine_outcome (event_data : json) :
  (forall r, examine event_data = Returns (true, r)
             <-> r = event_data /\ extraction_ok event_data = true)
  /\ (forall r, examine event_data = Returns (false, r) ->
                (exists msg, r = error_dict msg)
                \/ py_in "error" r = Returns true).
Proof.
  unfold examine.
  destruct (iterable event_data) eqn:Hit.
  - rewrite (py_in_iterable "error" _ Hit), (missing_in_iterable _ _ Hit).
    cbn [bind]. rewrite none_missing.
    destruct (in_value event_data "error") eqn:Herr.
    + split.
      * intros r. split; [discriminate |]. intros (_ & Hok).
        destruct event_data as [| b | n | s | l | members]; try discriminate.
        change (has_key members "error" = true) in Herr.
        unfold extraction_ok in Hok. now rewrite Herr in Hok.
      * intros r [= <-]. right. now rewrite (py_in_iterable "error" _ Hit), Herr.
    + destruct (forallb (in_value event_data) required_fields) eqn:Hall;
        cbn [negb].
      * destruct event_data as [| | | s | l | members]; try discriminate.
        -- destruct (validate_times_not_dict (JString s)) as (ex & Hex & Hnv);
             [discriminate |].
           rewrite Hex. cbn [bind try_except].
           split; intros r; destruct ex; (contradiction || discriminate
                                          || (split; [discriminate | intros (_ & H); discriminate])).
        -- destruct (validate_times_not_dict (JArray l)) as (ex & Hex & Hnv);
             [discriminate |].
           rewrite Hex. cbn [bind try_except].
           split; intros r; destruct ex; (contradiction || discriminate
                                          || (split; [discriminate | intros (_ & H); discriminate])).
        -- change (has_key members "error" = false) in Herr.
           change (forallb (has_key members) required_fields = true) in Hall.
           destruct (has_required_times _ Hall) as (Hs & He).
           unfold extraction_ok. rewrite Herr, Hall. cbn [negb andb].
           destruct (validate_times_dict members Hs He)
             as [(Hok & Hv) | (Hok & ex & Hv)]; rewrite Hv, Hok;
             cbn [bind try_except].
           ++ split; intros r.
              ** split; [intros [= <-]; auto | intros (-> & _); reflexivity].
              ** discriminate.
           ++ split; intros r.
              ** split; [destruct ex; discriminate | intros (_ & H); discriminate].
              ** destruct ex; try discriminate. intros [= <-]. left. eauto.
      * split; intros r.
        -- split; [discriminate |]. intros (_ & Hok).
           destruct event_data as [| b | n | s | l | members]; try discriminate.
           change (forallb (has_key members) required_fields = false) in Hall.
           unfold extraction_ok in Hok. rewrite Hall in Hok.
           rewrite andb_false_r in Hok. discriminate.
        -- intros [= <-]. left. eauto.
  - destruct (py_in_not_iterable "error" _ Hit) as (ex & Hex). rewrite Hex.
    cbn [bind]. split; intros r; [| discriminate].
    split; [discriminate |]. intros (_ & Hok).
    destruct event_data; discriminate.
Qed.

(** X10: [extract_event_info] never raises, and it returns success with
    a result exactly when the model gave a non-empty answer that decodes
    to that result and the result is a dict without the key 'error',
    with the keys 'title', 'start_time', 'end_time' and
    'duration_minutes', whose two times are strings that
    [fromisoformat] accepts; the result is the decoded answer unchanged.
    A failure carries an error dict, or the model's own answer when
    that holds "error". *)
Theorem extract_event_info_outcome (user_input : string) :
  (forall data,
      extract_event_info self json_loads extraction_prompt user_input
      = Returns (true, data)
      <-> (exists response,
              make_api_call self (extraction_prompt user_input) = Some response
              /\ response <> EmptyString
              /\ json_loads response = inr data)
          /\ extraction_ok data = true)
  /\ (exists ok r,
         extract_event_info self json_loads extraction_prompt user_input
         = Returns (ok, r)
         /\ (ok = false ->
             (exists msg, r = error_dict msg) \/ py_in "error" r = Returns true)).
Proof.
  unfold extract_event_info. rewrite extract_event_info_try_unfold. cbv zeta.
  destruct (make_api_call self (extraction_prompt user_input))
    as [[| c response] |] eqn:Hcall; cbn [no_response response_text].
  - split.
    + intros data. split; [discriminate |].
      intros ((response & [= <-] & Hne & _) & _). now destruct Hne.
    + eexists _, _. split; [reflexivity |]. intros _. left. eauto.
  - destruct (json_loads (String c response)) as [message | event_data] eqn:Hj.
    + split.
      * intros data. split; [discriminate |].
        intros ((response' & [= <-] & _ & Hl) & _). congruence.
      * eexists _, _. split; [reflexivity |]. intros _. left. eauto.
    + destruct (examine_outcome event_data) as (Htrue & Hfalse).
      destruct (examine event_data) as [[ok r] | ex] eqn:Hex;
        cbn [try_except].
      * split.
        -- intros data. split.
           ++ intros [= -> ->]. destruct (proj1 (Htrue data) eq_refl) as (-> & Hok).
              split; [| exact Hok]. exists (String c response).
              repeat split; [discriminate | exact Hj].
           ++ intros ((response' & [= <-] & _ & Hl) & Hok).
              rewrite Hj in Hl. injection Hl as ->.
              pose proof (proj2 (Htrue data) (conj eq_refl Hok)) as H.
              congruence.
        -- exists ok, r. split; [reflexivity |]. intros ->. now apply Hfalse.
      * split.
        -- intros data. split; [discriminate |].
           intros ((response' & [= <-] & _ & Hl) & Hok).
           rewrite Hj in Hl. injection Hl as ->.
           pose proof (proj2 (Htrue data) (conj eq_refl Hok)). discriminate.
        -- eexists _, _. split; [reflexivity |]. intros _. left. eauto.
  - split.
    + intros data. split; [discriminate |].
      intros ((response & Hr & _) & _). discriminate.
    + eexists _, _. split; [reflexivity |]. intros _. left. eauto.
Qed.

Lemma has_suggestion_times (members : list (string * json)) :
  forallb (has_key members) suggestion_keys = true ->
  has_key members "start_time" = true /\ has_key members "end_time" = true.
Proof.
  unfold suggestion_keys. cbn [forallb]. intros H.
  repeat (apply andb_true_iff in H; destruct H as (? & H)). auto.
Qed.

(** One turn of the loop over the suggestions, when it does not raise:
    the suggestion is appended exactly when it is [suggestion_ok]. *)
Lemma suggestions_loop_turn (suggestion : json) (rest valid r : list json) :
  suggestions_loop (suggestion :: rest) valid = Returns r ->
  suggestions_loop rest
    (valid ++ if suggestion_ok suggestion then [suggestion] else [])
  = Returns r.
Proof.
  cbn [suggestions_loop].
  destruct (iterable suggestion) eqn:Hit.
  - rewrite (all_in_iterable _ _ Hit). cbn [bind].
    destruct (forallb (in_value suggestion) suggestion_keys) eqn:Hall.
    + destruct suggestion as [| b | n | s | l | members];
        try discriminate Hit;
        try (destruct (validate_times_not_dict (JString s)) as (ex & Hex & Hnv);
             [discriminate |];
             rewrite Hex; cbn [bind try_except];
             destruct ex; (contradiction || discriminate));
        try (destruct (validate_times_not_dict (JArray l)) as (ex & Hex & Hnv);
             [discriminate |];
             rewrite Hex; cbn [bind try_except];
             destruct ex; (contradiction || discriminate)).
      change (forallb (has_key members) suggestion_keys = true) in Hall.
      destruct (has_suggestion_times _ Hall) as (Hs & He).
      unfold suggestion_ok. rewrite Hall. cbn [andb].
      destruct (validate_times_dict members Hs He)
        as [(Hok & Hv) | (Hok & ex & Hv)]; rewrite Hv, Hok;
        cbn [bind try_except]; [auto |].
      destruct ex; cbn [bind]; try discriminate.
      now rewrite app_nil_r.
    + assert (Hno : suggestion_ok suggestion = false).
      { destruct suggestion as [| b | n | s | l | members]; try reflexivity.
        change (forallb (has_key members) suggestion_keys = false) in Hall.
        unfold suggestion_ok. now rewrite Hall. }
      rewrite Hno, app_nil_r. auto.
  - destruct suggestion; try discriminate; cbn; discriminate.
Qed.

Lemma suggestions_loop_kept (suggestions : list json) :
  forall valid r,
    suggestions_loop suggestions valid = Returns r ->
    r = valid ++ filter suggestion_ok suggestions.
Proof.
  induction suggestions as [| x rest IH]; intros valid r H.
  - simpl in H. injection H as <-. now rewrite app_nil_r.
  - apply suggestions_loop_turn in H. apply IH in H. subst r.
    rewrite <- app_assoc. cbn [filter].
    now destruct (suggestion_ok x).
Qed.

(** X11: [suggest_alternatives] never raises and returns at most three
    suggestions: when it succeeds, those of the first three elements of
    the decoded array that are dicts with the keys 'suggestion',
    'start_time', 'end_time' and 'reason' and with two times that
    [fromisoformat] accepts, in their order; every failure gives
    [False] with the empty list. *)
Theorem suggest_alternatives_outcome (event_description : string)
    (conflicts : list conflict_dict) :
  exists ok valid,
    suggest_alternatives self json_loads alternatives_prompt
      event_description conflicts
    = Returns (ok, valid)
    /\ (ok = false -> valid = [])
    /\ (List.length valid <= 3)%nat
    /\ forallb suggestion_ok valid = true
    /\ (ok = true ->
        exists response suggestions,
          make_api_call self (alternatives_prompt event_description conflicts)
          = Some response
          /\ json_loads response = inr (JArray suggestions)
          /\ valid = filter suggestion_ok (firstn 3 suggestions)).
Proof.
  unfold suggest_alternatives, suggest_alternatives_try.
  assert (Hfail : exists ok valid : _,
             @Returns (bool * list json) (false, []) = Returns (ok, valid)
             /\ (ok = false -> valid = [])
             /\ (List.length valid <= 3)%nat
             /\ forallb suggestion_ok valid = true
             /\ (ok = true ->
                 exists response suggestions,
                   make_api_call self
                     (alternatives_prompt event_description conflicts)
                   = Some response
                   /\ json_loads response = inr (JArray suggestions)
                   /\ valid = filter suggestion_ok (firstn 3 suggestions))).
  { exists false, []. repeat split; auto; discriminate. }
  destruct (make_api_call self (alternatives_prompt event_description conflicts))
    as [[| c response] |]; cbn [no_response response_text]; try exact Hfail.
  destruct (json_loads (String c response)) as [message | data] eqn:Hj;
    try exact Hfail.
  destruct data as [| b | n | s | suggestions | members]; try exact Hfail.
  destruct (suggestions_loop (firstn 3 suggestions) []) as [valid | ex] eqn:Hloop;
    cbn [bind try_except]; try exact Hfail.
  apply suggestions_loop_kept in Hloop. simpl in Hloop. subst valid.
  exists true, (filter suggestion_ok (firstn 3 suggestions)).
  split; [reflexivity |]. split; [discriminate |]. split; [| split].
  - etransitivity; [apply filter_length_le |]. apply firstn_le_length.
  - apply forallb_forall. intros x Hx. now apply filter_In in Hx.
  - intros _. exists (String c response), suggestions. auto.
Qed.

End GrokProperties.

(** * The minimum duration and the number of slots *)

Section DurationProperties.

Context {platform : Platform}.
Variable self : GoogleCalendarAPI.

(** Whether the loop raises does not depend on the minimum duration. *)
Lemma slots_loop_any_duration (dm dm' : Z) (events : list event) :
  forall c acc c' acc' acc2,
    slots_loop dm events c acc = Returns (c', acc') ->
    slots_loop dm' events c acc2
    = Returns (fst (sweep_gaps dm' events c),
               acc2 ++ map gap_slot (snd (sweep_gaps dm' events c))).
Proof.
  induction events as [| e rest IH]; intros c acc c' acc' acc2 H.
  - simpl. now rewrite app_nil_r.
  - destruct (is_timed e) eqn:Ht.
    + destruct (slots_loop_timed_inv _ _ _ _ _ _ Ht H)
        as (a & b & Hspan & Ha & Hb & Hrest).
      rewrite (slots_loop_timed_step dm' e rest c a b acc2 Ht Hspan Ha Hb).
      rewrite (IH _ _ _ _ _ Hrest). simpl sweep_gaps. rewrite Hspan.
      destruct (sweep_gaps dm' rest (if instant c <? instant b then b else c))
        as [last found]. simpl.
      destruct (dm' * 60 <=? instant a - instant c); simpl;
        [now rewrite <- app_assoc | reflexivity].
    + rewrite (slots_loop_all_day _ _ _ _ _ Ht) in H.
      rewrite (slots_loop_all_day _ _ _ _ _ Ht).
      simpl sweep_gaps. rewrite (all_day_no_span _ Ht).
      now apply (IH _ _ _ _ _ H).
Qed.

Lemma long_enough_pair (dm : Z) (from to : datetime) :
  long_enough dm (from, to) = (dm * 60 <=? instant to - instant from).
Proof. reflexivity. Qed.

Lemma sweep_gaps_longer (dm dm' : Z) (events : list event) :
  dm <= dm' ->
  forall c,
    fst (sweep_gaps dm' events c) = fst (sweep_gaps dm events c)
    /\ snd (sweep_gaps dm' events c)
       = filter (long_enough dm') (snd (sweep_gaps dm events c)).
Proof.
  intros Hle. induction events as [| e rest IH]; intros c; simpl; [auto |].
  destruct (event_span e) as [[a b] |]; [| apply IH].
  destruct (IH (if instant c <? instant b then b else c)) as (Hc & Hg).
  destruct (sweep_gaps dm rest (if instant c <? instant b then b else c))
    as [last found].
  destruct (sweep_gaps dm' rest (if instant c <? instant b then b else c))
    as [last' found'].
  simpl in *. split; [exact Hc |]. subst found'.
  destruct (dm' * 60 <=? instant a - instant c) eqn:H';
    destruct (dm * 60 <=? instant a - instant c) eqn:H;
    cbn [filter]; rewrite ?long_enough_pair, ?H'; try reflexivity.
  apply Z.leb_le in H'. apply Z.leb_gt in H. lia.
Qed.

Lemma window_gaps_longer (s e : datetime) (dm dm' : Z) (events : list event) :
  dm <= dm' ->
  window_gaps s e dm' events
  = filter (long_enough dm') (window_gaps s e dm events).
Proof.
  intros Hle. unfold window_gaps.
  destruct (sweep_gaps_longer dm dm' events Hle s) as (Hc & Hg).
  destruct (sweep_gaps dm events s) as [last found].
  destruct (sweep_gaps dm' events s) as [last' found'].
  simpl in *. subst last' found'.
  destruct (dm' * 60 <=? instant e - instant last) eqn:H';
    destruct (dm * 60 <=? instant e - instant last) eqn:H;
    rewrite ?filter_app; cbn [filter];
    rewrite ?long_enough_pair, ?H', ?app_nil_r; try reflexivity.
  apply Z.leb_le in H'. apply Z.leb_gt in H. lia.
Qed.

Lemma sweep_any_duration (s e : datetime) (dm dm' : Z) (events : list event)
    (out : list free_slot) :
  sweep s e dm events = Returns out ->
  sweep s e dm' events = Returns (map gap_slot (window_gaps s e dm' events)).
Proof.
  unfold sweep, window_gaps. intros H. bind_inv H. destruct v as [c acc].
  pose proof (slots_loop_any_duration dm dm' events _ _ _ _ [] Hv) as Hrun'.
  pose proof (slots_loop_any_duration dm dm events _ _ _ _ [] Hv) as Hrun.
  rewrite Hrun'. rewrite Hv in Hrun. injection Hrun as Hc _.
  assert (Hsame : fst (sweep_gaps dm' events s) = c).
  { clear -Hc. revert s c Hc. induction events as [| x rest IH]; intros s c Hc.
    - exact (eq_sym Hc).
    - simpl in *. destruct (event_span x) as [[a b] |]; [| now apply IH].
      specialize (IH (if instant s <? instant b then b else s)).
      destruct (sweep_gaps dm rest (if instant s <? instant b then b else s)).
      destruct (sweep_gaps dm' rest (if instant s <? instant b then b else s)).
      simpl in *. now apply IH. }
  destruct (sweep_gaps dm' events s) as [last found]. simpl in *. subst last.
  unfold dt_sub in *. destruct (Bool.eqb (aware e) (aware c));
    [| discriminate].
  simpl. destruct (dm' * 60 <=? instant e - instant c);
    [now rewrite map_app | reflexivity].
Qed.

(** X12: asking for longer slots only removes slots. For two minimum
    durations [dm <= dm'] the slots that [find_free_slots] returns for
    [dm'] are those of the slots returned for [dm] that are at least
    [dm'] minutes long, unchanged and in the same order. *)
Theorem find_free_slots_longer_duration
    (date : string) (dm dm' wsh weh : Z) :
  dm <= dm' ->
  exists gaps,
    find_free_slots self date dm wsh weh = Returns (map gap_slot gaps)
    /\ find_free_slots self date dm' wsh weh
       = Returns (map gap_slot (filter (long_enough dm') gaps)).
Proof.
  intros Hle. unfold find_free_slots, find_free_slots_try.
  destruct (work_window self date wsh weh) as [[s e] | ex];
    [| exists []; split; reflexivity].
  cbn [bind].
  destruct (events_list (service self) (slots_request self s e))
    as [resp | ex]; [| exists []; split; reflexivity].
  cbn [bind].
  destruct (sweep s e dm (get_items resp)) as [out | ex] eqn:Hdm.
  - exists (window_gaps s e dm (get_items resp)).
    rewrite (sweep_any_duration _ _ _ dm' _ _ Hdm).
    rewrite (sweep_refines _ _ _ _ _ Hdm).
    now rewrite (window_gaps_longer s e dm dm' _ Hle).
  - exists []. split; [reflexivity |].
    destruct (sweep s e dm' (get_items resp)) as [out | ex'] eqn:Hdm';
      [| reflexivity].
    rewrite (sweep_any_duration _ _ _ dm _ _ Hdm') in Hdm. discriminate.
Qed.

Lemma sweep_gaps_count (dm : Z) (events : list event) :
  forall c,
    (List.length (snd (sweep_gaps dm events c))
     <= List.length (filter is_timed events))%nat.
Proof.
  induction events as [| e rest IH]; intros c; simpl; [lia |].
  destruct (event_span e) as [[a b] |] eqn:Hspan.
  - rewrite (span_timed _ _ _ Hspan).
    specialize (IH (if instant c <? instant b then b else c)).
    destruct (sweep_gaps dm rest (if instant c <? instant b then b else c))
      as [last found]. simpl in *.
    destruct (dm * 60 <=? instant a - instant c); simpl; lia.
  - specialize (IH c). destruct (is_timed e); simpl; lia.
Qed.

(** X13: [find_free_slots] returns at most one slot more than the
    provider listed timed events. *)
Theorem find_free_slots_slot_count
    (date : string) (dm wsh weh : Z) (s e : datetime) (resp : list_response) :
  work_window self date wsh weh = Returns (s, e) ->
  events_list (service self) (slots_request self s e) = Returns resp ->
  exists out,
    find_free_slots self date dm wsh weh = Returns out
    /\ (List.length out
        <= List.length (filter is_timed (get_items resp)) + 1)%nat.
Proof.
  intros Hw Hl.
  rewrite (find_free_slots_listed self _ _ _ _ _ _ _ Hw Hl).
  destruct (sweep s e dm (get_items resp)) as [out | ex] eqn:Hsweep;
    [| exists []; split; [reflexivity | simpl; lia]].
  exists out. split; [reflexivity |].
  rewrite (sweep_refines _ _ _ _ _ Hsweep), length_map.
  unfold window_gaps.
  pose proof (sweep_gaps_count dm (get_items resp) s) as Hcount.
  destruct (sweep_gaps dm (get_items resp) s) as [last found]. simpl in *.
  destruct (dm * 60 <=? instant e - instant last);
    [rewrite length_app; simpl; lia | lia].
Qed.

End DurationProperties.


(** * Further scenarios on the reference platform *)

Section MoreScenarios.

#[local] Existing Instance reference_platform.

Ltac listed_sorted := repeat constructor; vm_compute; discriminate.

Ltac readable :=
  let H := fresh "H" in
  intros H; first [ discriminate H
                  | eexists _, _; split; [reflexivity |];
                    split; [reflexivity |]; split; [reflexivity |];
                    vm_compute; discriminate ].

Lemma find_free_slots_slots_meet_no_busy_interval_witness :
  let events := [holiday_event; standup_event; workshop_event] in
  let self := api_over (fixed_service events) in
  work_window self "2024-01-15" 9 18 = Returns (nine, eighteen)
  /\ exists gaps,
      find_free_slots self "2024-01-15" 30 9 18 = Returns (map gap_slot gaps)
      /\ Forall (fun g => instant nine <= instant (fst g)
                          /\ clear_of events g) gaps.
Proof.
  cbv zeta.
  assert (Hw : work_window
                 (api_over (fixed_service [holiday_event; standup_event; workshop_event]))
                 "2024-01-15" 9 18
               = Returns (nine, eighteen)) by reflexivity.
  split; [exact Hw |].
  apply (find_free_slots_slots_meet_no_busy_interval
           (api_over (fixed_service [holiday_event; standup_event; workshop_event]))
           "2024-01-15" 30 9 18 nine eighteen
           {| items := Some [holiday_event; standup_event; workshop_event] |}
           Hw eq_refl).
  listed_sorted.
Defined.

Lemma find_free_slots_finds_every_free_stretch_witness :
  let events := [holiday_event; standup_event; workshop_event] in
  let self := api_over (fixed_service events) in
  30 * 60 <= instant fifteen - (instant nine + 7200)
  /\ exists gaps g,
      find_free_slots self "2024-01-15" 30 9 18 = Returns (map gap_slot gaps)
      /\ In g gaps
      /\ instant (fst g) <= instant nine + 7200
      /\ instant fifteen <= instant (snd g).
Proof.
  cbv zeta. split; [vm_compute; discriminate |].
  assert (Hw : work_window
                 (api_over (fixed_service [holiday_event; standup_event; workshop_event]))
                 "2024-01-15" 9 18
               = Returns (nine, eighteen)) by reflexivity.
  apply (find_free_slots_finds_every_free_stretch
           (api_over (fixed_service [holiday_event; standup_event; workshop_event]))
           "2024-01-15" 30 9 18 nine eighteen
           {| items := Some [holiday_event; standup_event; workshop_event] |}
           (instant nine + 7200) (instant fifteen) Hw eq_refl).
  - repeat constructor; readable.
  - vm_compute. discriminate.
  - vm_compute. discriminate.
  - vm_compute. discriminate.
  - intros b a' b' [<- | [<- | [<- | []]]] Hspan; vm_compute in Hspan;
      try discriminate Hspan; injection Hspan as <- <-.
    + left. vm_compute. discriminate.
    + right. vm_compute. discriminate.
Defined.

Lemma find_free_slots_bad_day_or_hour_witness :
  ~ (0 <= 24 <= 23)
  /\ find_free_slots (api_over (fixed_service [standup_event]))
       "2024-01-15" 30 9 24
     = Returns [].
Proof.
  split; [lia |].
  apply find_free_slots_bad_day_or_hour. right. right. lia.
Defined.


Lemma replace_Z_properties_witness :
  str_contains "Z" at_14_00 = false
  /\ replace_Z at_14_00 = at_14_00
  /\ datetime_fromisoformat (replace_Z at_14_00) = Returns fourteen.
Proof.
  assert (Hno : str_contains "Z" at_14_00 = false) by reflexivity.
  split; [exact Hno |].
  destruct (proj2 (proj2 (replace_Z_properties at_14_00)) Hno) as (Hid & Hread).
  split; [exact Hid |]. apply Hread. reflexivity.
Defined.


Lemma extract_event_info_outcome_witness :
  extract_event_info sample_grok extraction_decoder (fun text => text)
    "lunch tomorrow at noon"
  = Returns (true, lunch_extraction).
Proof.
  apply (proj1 (extract_event_info_outcome sample_grok extraction_decoder
                  (fun text => text) "lunch tomorrow at noon")).
  split; [| reflexivity].
  exists "answer". split; [reflexivity | split; [discriminate | reflexivity]].
Defined.

Lemma suggest_alternatives_outcome_witness :
  exists ok valid,
    suggest_alternatives sample_grok suggestions_decoder (fun text _ => text)
      "lunch" []
    = Returns (ok, valid)
    /\ (ok = false -> valid = [])
    /\ (List.length valid <= 3)%nat
    /\ forallb suggestion_ok valid = true
    /\ (ok = true ->
        exists response suggestions,
          make_api_call sample_grok "lunch" = Some response
          /\ suggestions_decoder response = inr (JArray suggestions)
          /\ valid = filter suggestion_ok (firstn 3 suggestions)).
Proof.
  exact (suggest_alternatives_outcome sample_grok suggestions_decoder
           (fun text _ => text) "lunch" []).
Defined.

Lemma find_free_slots_longer_duration_witness :
  30 <= 90
  /\ exists gaps,
      find_free_slots (api_over (fixed_service [standup_event]))
        "2024-01-15" 30 9 18 = Returns (map gap_slot gaps)
      /\ find_free_slots (api_over (fixed_service [standup_event]))
           "2024-01-15" 90 9 18
         = Returns (map gap_slot (filter (long_enough 90) gaps)).
Proof.
  split; [lia |].
  apply find_free_slots_longer_duration. lia.
Defined.

Lemma find_free_slots_slot_count_witness :
  let events := [holiday_event; standup_event; workshop_event] in
  let self := api_over (fixed_service events) in
  exists out,
    find_free_slots self "2024-01-15" 30 9 18 = Returns out
    /\ (List.length out <= List.length (filter is_timed events) + 1)%nat.
Proof.
  cbv zeta.
  assert (Hw : work_window
                 (api_over (fixed_service [holiday_event; standup_event; workshop_event]))
                 "2024-01-15" 9 18
               = Returns (nine, eighteen)) by reflexivity.
  exact (find_free_slots_slot_count
           (api_over (fixed_service [holiday_event; standup_event; workshop_event]))
           "2024-01-15" 30 9 18 nine eighteen
           {| items := Some [holiday_event; standup_event; workshop_event] |}
           Hw eq_refl).
Defined.

End MoreScenarios.
